(** * Choropleth overlay generator (vizuepy)

    A shallow embedding of [choropleth_overlay_generator.ipynb]: the notebook
    loads a vector dataset with GeoPandas, plots a categorical choropleth with
    Matplotlib, saves the legend and the map as two images and prints the
    offsets that place the map texture in Unreal Engine.

    The notebook is a straight-line script over mutable library objects. It is
    modelled as a state-and-exception monad over a [world] (standard output,
    the files on disk, the current figure).  Numbers are IEEE-754 binary64, as
    Python's [float] and NumPy's [float64] are; they are the kernel's
    primitive floats here.  What GeoPandas and Matplotlib compute internally
    (reading a file, laying out a plot, measuring the legend) is not in the
    notebook: it enters through the [Library] class. *)

From Stdlib Require Import ZArith Lia Bool List Floats.
From stdpp Require Import base option list gmap strings.

Set Warnings "-inexact-float".
Local Open Scope string_scope.

(** * Part I: definitions *)

(** ** Binary64 sign classes, on the specification floats *)

(** Zero of either sign, a positive finite number or [+inf]: what [0 <= x]
    accepts. *)
Definition SFnonneg (x : spec_float) : bool :=
  match x with
  | S754_zero _ => true
  | S754_infinity s | S754_finite s _ _ => negb s
  | S754_nan => false
  end.

Definition SFfinite (x : spec_float) : bool :=
  match x with
  | S754_zero _ | S754_finite _ _ _ => true
  | _ => false
  end.

(** ** Python values and exceptions *)

Inductive exception :=
| KeyError (key : string)          (* [d[k]] with [k] not in the dict *)
| AttributeError (msg : string)    (* attribute access on [None] *)
| NameError (name : string)        (* a variable read before its cell ran *)
| LibraryError (msg : string).     (* raised inside GeoPandas or Matplotlib *)

Inductive result (A : Type) :=
| Ok (a : A)
| Raise (e : exception).
Arguments Ok {A} a.
Arguments Raise {A} e.

(** A reference as [ax.get_legend()] returns it: [None], or the legend
    object, which lives in the axes of the current figure. *)
Inductive pyref := PyNone | PyLegend.

(** ** Matplotlib objects, as far as the notebook touches them *)

(** [matplotlib.transforms.Bbox], by its extents [x0, y0, x1, y1]. *)
Record Bbox := { x0 : float; y0 : float; x1 : float; y1 : float }.

Definition extents (b : Bbox) : float * float * float * float :=
  (x0 b, y0 b, x1 b, y1 b).

Definition from_extents (e : float * float * float * float) : Bbox :=
  let '(a, b, c, d) := e in {| x0 := a; y0 := b; x1 := c; y1 := d |}.

(** [extents + np.array(expand)]: element-wise binary64 addition. *)
Definition array_add (a b : float * float * float * float) :
    float * float * float * float :=
  let '(a0, a1, a2, a3) := a in
  let '(b0, b1, b2, b3) := b in
  (a0 + b0, a1 + b1, a2 + b2, a3 + b3)%float.

(** [Affine2D], restricted to the axis-aligned scalings the notebook builds
    ([fig.dpi_scale_trans] is [Affine2D().scale(dpi)]). *)
Record Affine2D := { scale_x : float; scale_y : float }.

Definition scale (s : float) : Affine2D := {| scale_x := s; scale_y := s |}.

Definition inverted (t : Affine2D) : Affine2D :=
  {| scale_x := 1 / scale_x t; scale_y := 1 / scale_y t |}%float.

Definition transformed (b : Bbox) (t : Affine2D) : Bbox :=
  {| x0 := scale_x t * x0 b; y0 := scale_y t * y0 b;
     x1 := scale_x t * x1 b; y1 := scale_y t * y1 b |}%float.

(** The legend: one text label per category, each holding its string. *)
Record Legend := { legend_texts : list string }.

Inductive aspect := AspectAuto | AspectEqual.

Record Axes := {
  legend_ : option Legend;
  xlim : float * float;
  ylim : float * float;
  ax_aspect : aspect;
  xticks : option (list float);      (* [None]: automatic ticks *)
  yticks : option (list float);
  axison : bool
}.

Record SubplotParams := {
  sp_left : float; sp_right : float; sp_bottom : float; sp_top : float;
  sp_hspace : float; sp_wspace : float
}.

(** [canvas_draws] and [drawn_labels] are ghost fields that follow the
    notebook's own calls of [fig.canvas.draw()]: how many there were, and the
    legend labels at the last of them.  The rendering [savefig] does
    internally is not counted. *)
Record Figure := {
  figsize : float * float;
  fig_dpi : float;
  subplotpars : option SubplotParams;   (* [None]: the rc defaults *)
  ax : Axes;
  canvas_draws : nat;
  drawn_labels : option (list string)
}.

(** [bbox_inches] of [savefig]. *)
Inductive bbox_inches :=
| BboxTight (pad_inches : float)
| BboxRegion (b : Bbox).

(** A saved image, identified by what [savefig] was asked to write: the
    resolution, the region, and the figure as it stood. *)
Record Image := {
  img_dpi : float;
  img_bbox : bbox_inches;
  img_figure : Figure
}.

(** ** The world *)

(** A printed line: a plain message, or ['label %s' % v] kept as the label and
    the number rather than its decimal rendering. *)
Inductive line :=
| Msg (s : string)
| Fmt (label : string) (v : float).

Record world := {
  stdout : list line;
  files : gmap string Image;
  figure : option Figure       (* [fig], with [ax] and the legend inside *)
}.

Definition M (A : Type) : Type := world -> result A * world.

#[export] Instance M_ret : MRet M := fun A a w => (Ok a, w).

(** An exception stops the script; what was printed and written stays. *)
#[export] Instance M_bind : MBind M := fun A B f m w =>
  match m w with
  | (Ok a, w') => f a w'
  | (Raise e, w') => (Raise e, w')
  end.

Definition raise {A} (e : exception) : M A := fun w => (Raise e, w).

Definition lift {A} (r : result A) : M A := fun w => (r, w).

Definition set_stdout (o : list line) (w : world) : world :=
  {| stdout := o; files := files w; figure := figure w |}.

Definition set_files (fs : gmap string Image) (w : world) : world :=
  {| stdout := stdout w; files := fs; figure := figure w |}.

Definition set_figure (f : option Figure) (w : world) : world :=
  {| stdout := stdout w; files := files w; figure := f |}.

Definition print (l : line) : M unit :=
  fun w => (Ok tt, set_stdout (stdout w ++ [l]) w).

(** Reading [fig] or [ax]: unbound until cell 4 has run. *)
Definition get_fig : M Figure := fun w =>
  match figure w with
  | Some f => (Ok f, w)
  | None => (Raise (NameError "fig"), w)
  end.

Definition put_fig (f : Figure) : M unit :=
  fun w => (Ok tt, set_figure (Some f) w).

Definition modify_fig (g : Figure -> Figure) : M unit :=
  f ← get_fig; put_fig (g f).

(** The lines a computation prints when started in [w]. *)
Definition output_of {A} (m : M A) (w : world) : list line :=
  drop (length (stdout w)) (stdout (snd (m w))).

(** The number printed under [label], if any (the last such line). *)
Fixpoint reported (label : string) (out : list line) : option float :=
  match out with
  | [] => None
  | Fmt l v :: rest =>
      match reported label rest with
      | Some v' => Some v'
      | None => if String.eqb l label then Some v else None
      end
  | Msg _ :: rest => reported label rest
  end.

(** ** The libraries behind the notebook *)

(** The keyword arguments of [gdf.plot] in cell 4. *)
Record plot_kwargs := {
  categorical : bool;
  legend : bool;
  bbox_to_anchor : float * float;     (* [legend_kwds] *)
  linewidth : float
}.

(** What the notebook calls and cannot see into.  [gdf_plot] draws into the
    axes it is given and hands them back, with the legend and the data limits
    it chose, or raises; [get_window_extent] measures the legend of a figure
    in canvas pixels; [autoscale_view] gives the limits [ax.axis('scaled')]
    settles on. *)
Class Library := {
  GeoDataFrame : Type;
  read_file : string -> result GeoDataFrame;         (* [gpd.read_file] *)
  crs_ne : GeoDataFrame -> string -> bool;           (* [gdf.crs != s] *)
  rc_figure_dpi : float;                             (* [rcParams['figure.dpi']] *)
  gdf_plot : GeoDataFrame -> string -> plot_kwargs -> Axes -> result Axes;
  get_window_extent : Figure -> Bbox;
  autoscale_view : Axes -> (float * float) * (float * float)
}.

(** ** Cell 2: configuration and loading *)

(** The plain named values the notebook sets before running. *)
Record Config := {
  data_path : string;
  legend_label_lookup : gmap string string;
  column_to_plot : string;
  legend_filename : string;
  texture_filename : string;
  ue_world_origin_bng_eastings : float;
  ue_world_origin_bng_northings : float;
  width_inches : float;
  height_inches : float;
  dpi : float
}.

Definition notebook_label_lookup : gmap string string :=
  <["A" := "Intermediate Lifestyles"]>
  (<["B" := "High Density and High Rise Flats"]>
  (<["C" := "Settled Asians"]>
  (<["D" := "Urban Elites"]>
  (<["E" := "City Vibe"]>
  (<["F" := "London Life-Cycle"]>
  (<["G" := "Multi-Ethnic Suburbs"]>
  (<["H" := "Ageing City Fringe"]> ∅))))))).

(** The values as the notebook has them.  The two origin coordinates are
    Python ints there; the only use of each is [origin - ax.get_xlim()[0]],
    where Python converts the int to the float of the same value. *)
Definition notebook_config : Config := {|
  data_path := "sample_data/FourLADs_2011LOAC.gpkg";
  legend_label_lookup := notebook_label_lookup;
  column_to_plot := "Super";
  legend_filename := "images/FourLADs_LOAC_legend.png";
  texture_filename := "images/FourLADs_LOAC_texture.png";
  ue_world_origin_bng_eastings := 532816;
  ue_world_origin_bng_northings := 180759;
  width_inches := 12.8;
  height_inches := 9.6;
  dpi := 600
|}.

Definition expected_crs : string := "EPSG:27700".

Definition crs_warning : string :=
  "Check your coordinate reference system. This notebook was developed using EPSG:27700 and it may not work correctly with other coordinate reference systems.".

Definition cell2 `{Library} (cfg : Config) : M GeoDataFrame :=
  gdf ← lift (read_file (data_path cfg));
  (if crs_ne gdf expected_crs then print (Msg crs_warning) else mret tt);;
  mret gdf.

(** ** Cell 3: [export_legend] *)

Definition with_legend (l : option Legend) (a : Axes) : Axes :=
  {| legend_ := l; xlim := xlim a; ylim := ylim a; ax_aspect := ax_aspect a;
     xticks := xticks a; yticks := yticks a; axison := axison a |}.

Definition with_ax (a : Axes) (f : Figure) : Figure :=
  {| figsize := figsize f; fig_dpi := fig_dpi f; subplotpars := subplotpars f;
     ax := a; canvas_draws := canvas_draws f; drawn_labels := drawn_labels f |}.

(** The legend the reference points to. *)
Definition deref (l : pyref) (attr : string) : M Legend :=
  match l with
  | PyNone =>
      raise (AttributeError ("'NoneType' object has no attribute '" ++ attr ++ "'"))
  | PyLegend =>
      f ← get_fig;
      match legend_ (ax f) with
      | Some lg => mret lg
      | None => raise (LibraryError "legend is not attached")
      end
  end.

(** [fig = legend.figure] *)
Definition legend_figure (l : pyref) : M Figure :=
  deref l "figure";; get_fig.

(** [fig.canvas.draw()]: renders the figure as it stands. *)
Definition draw (f : Figure) : Figure :=
  {| figsize := figsize f; fig_dpi := fig_dpi f; subplotpars := subplotpars f;
     ax := ax f; canvas_draws := S (canvas_draws f);
     drawn_labels := legend_texts <$> legend_ (ax f) |}.

Definition canvas_draw : M unit := modify_fig draw.

(** [legend.get_texts()], as the strings the labels hold. *)
Definition get_texts (l : pyref) : M (list string) :=
  lg ← deref l "get_texts"; mret (legend_texts lg).

Definition set_texts (ts : list string) (f : Figure) : Figure :=
  with_ax (with_legend (Some {| legend_texts := ts |}) (ax f)) f.

(** [label.set_text(s)] on the [i]-th label of the legend. *)
Definition set_text (l : pyref) (i : nat) (s : string) : M unit :=
  lg ← deref l "get_texts";
  modify_fig (set_texts (<[i := s]> (legend_texts lg))).

(** [for label in legend.get_texts():
         label.set_text(legend_label_dict[label.get_text()])]
    from the [i]-th label on; [labels] are the strings still to replace. *)
Fixpoint relabel (l : pyref) (d : gmap string string) (i : nat)
    (labels : list string) : M unit :=
  match labels with
  | [] => mret tt
  | t :: rest =>
      match d !! t with
      | Some s => set_text l i s;; relabel l d (S i) rest
      | None => raise (KeyError t)
      end
  end.

Definition write_file (filename : string) (img : Image) : M unit :=
  fun w => (Ok tt, set_files (<[filename := img]> (files w)) w).

(** The resolutions [savefig] accepts: finite and positive. *)
Definition valid_dpi (r : float) : bool := is_finite r && (0 <? r)%float.

Definition savefig_refused : exception :=
  LibraryError "savefig: dpi is not a positive finite number".

(** [fig.savefig(filename, dpi=..., bbox_inches=...)]: for a resolution that
    is not positive Matplotlib raises (a [ValueError] for [dpi <= 0], kept
    here as a [LibraryError]) and writes nothing. *)
Definition savefig (filename : string) (r : float) (b : bbox_inches) : M unit :=
  f ← get_fig;
  if valid_dpi r
  then write_file filename {| img_dpi := r; img_bbox := b; img_figure := f |}
  else raise savefig_refused.

(** [fig.dpi_scale_trans] *)
Definition dpi_scale_trans (f : Figure) : Affine2D := scale (fig_dpi f).

(** The default of [expand], [[-5,-5,5,5]]. *)
Definition default_expand : float * float * float * float :=
  (-5, -5, 5, 5)%float.

(** The labels after the loop of [export_legend]: each replaced by its
    entry, or all as they were when no dict is passed. *)
Definition new_labels (legend_label_dict : option (gmap string string))
    (labels : list string) : list string :=
  match legend_label_dict with
  | Some d => map (fun t => d !!! t) labels
  | None => labels
  end.

(** [fig] is a reference: the figure is read where the source uses it, after
    [draw] and the relabelling have changed it. *)
Definition export_legend `{Library} (l : pyref) (filename : string)
    (legend_label_dict : option (gmap string string))
    (expand : float * float * float * float) : M unit :=
  legend_figure l;;
  canvas_draw;;
  match legend_label_dict with
  | Some d => labels ← get_texts l; relabel l d 0 labels
  | None => mret tt
  end;;
  fig ← get_fig;
  let bbox := get_window_extent fig in
  let bbox := from_extents (array_add (extents bbox) expand) in
  let bbox := transformed bbox (inverted (dpi_scale_trans fig)) in
  savefig filename 600 (BboxRegion bbox).

(** ** Cell 4: plot, export the legend, export the texture *)

Definition new_axes : Axes := {|
  legend_ := None; xlim := (0, 1)%float; ylim := (0, 1)%float;
  ax_aspect := AspectAuto; xticks := None; yticks := None; axison := true
|}.

(** [fig = plt.figure(figsize=...)] and [ax = fig.add_subplot(111)] *)
Definition plt_figure `{Library} (size : float * float) : M unit :=
  put_fig {| figsize := size; fig_dpi := rc_figure_dpi; subplotpars := None;
             ax := new_axes; canvas_draws := 0; drawn_labels := None |}.

Definition get_ax : M Axes := fun w =>
  match figure w with
  | Some f => (Ok (ax f), w)
  | None => (Raise (NameError "ax"), w)
  end.

Definition modify_ax (g : Axes -> Axes) : M unit :=
  a ← get_ax; modify_fig (with_ax (g a)).

Definition notebook_plot_kwargs : plot_kwargs := {|
  categorical := true; legend := true;
  bbox_to_anchor := (2.0, 1)%float; linewidth := 0
|}.

(** [gdf.plot(column, ax=ax, ...)] *)
Definition plot `{Library} (gdf : GeoDataFrame) (column : string)
    (kw : plot_kwargs) : M unit :=
  a ← get_ax;
  a' ← lift (gdf_plot gdf column kw a);
  modify_fig (with_ax a').

(** [ax.get_legend()] *)
Definition ax_get_legend : M pyref :=
  a ← get_ax;
  mret (match legend_ a with Some _ => PyLegend | None => PyNone end).

(** [legend.remove()] *)
Definition legend_remove (l : pyref) : M unit :=
  deref l "remove";; modify_ax (with_legend None).

(** [ax.axis('scaled')]: equal aspect, limits as autoscaling gives them. *)
Definition axis_scaled `{Library} (a : Axes) : Axes :=
  {| legend_ := legend_ a;
     xlim := fst (autoscale_view a); ylim := snd (autoscale_view a);
     ax_aspect := AspectEqual;
     xticks := xticks a; yticks := yticks a; axison := axison a |}.

Definition ax_get_xlim : M (float * float) := a ← get_ax; mret (xlim a).
Definition ax_get_ylim : M (float * float) := a ← get_ax; mret (ylim a).

Definition set_xticks (t : list float) (a : Axes) : Axes :=
  {| legend_ := legend_ a; xlim := xlim a; ylim := ylim a;
     ax_aspect := ax_aspect a;
     xticks := Some t; yticks := yticks a; axison := axison a |}.

Definition set_yticks (t : list float) (a : Axes) : Axes :=
  {| legend_ := legend_ a; xlim := xlim a; ylim := ylim a;
     ax_aspect := ax_aspect a;
     xticks := xticks a; yticks := Some t; axison := axison a |}.

(** [ax.axis('off')] *)
Definition axis_off (a : Axes) : Axes :=
  {| legend_ := legend_ a; xlim := xlim a; ylim := ylim a;
     ax_aspect := ax_aspect a;
     xticks := xticks a; yticks := yticks a; axison := false |}.

(** [plt.subplots_adjust(...)] *)
Definition adjust (p : SubplotParams) (f : Figure) : Figure :=
  {| figsize := figsize f; fig_dpi := fig_dpi f; subplotpars := Some p;
     ax := ax f; canvas_draws := canvas_draws f;
     drawn_labels := drawn_labels f |}.

Definition subplots_adjust (p : SubplotParams) : M unit :=
  modify_fig (adjust p).

Definition no_padding : SubplotParams := {|
  sp_left := 0; sp_right := 1; sp_bottom := 0; sp_top := 1;
  sp_hspace := 0; sp_wspace := 0
|}.

Definition cell4 `{Library} (cfg : Config) (gdf : GeoDataFrame) : M unit :=
  plt_figure (width_inches cfg, height_inches cfg);;
  plot gdf (column_to_plot cfg) notebook_plot_kwargs;;
  legend ← ax_get_legend;
  export_legend legend (legend_filename cfg) (Some (legend_label_lookup cfg))
    default_expand;;
  legend_remove legend;;
  modify_ax axis_scaled;;
  _ ← ax_get_xlim;
  _ ← ax_get_ylim;
  modify_ax (set_xticks []);;
  modify_ax (set_yticks []);;
  modify_ax axis_off;;
  subplots_adjust no_padding;;
  savefig (texture_filename cfg) (dpi cfg) (BboxTight 0).

(** ** Cell 5: the geo-registration report *)

Definition lbl_ll_eastings : string := "LL eastings offset: ".
Definition lbl_ll_northings : string := "LL northings offset: ".
Definition lbl_eastings : string :=
  "Eastings world origin to texture start (cm): ".
Definition lbl_northings : string :=
  "Northings world origin to texture start (cm): ".
Definition lbl_width : string := "Texture width (cm): ".
Definition lbl_height : string := "Text height (cm): ".

Definition cell5 (cfg : Config) : M unit :=
  print (Msg "The following information is needed to build the overlay texture in unreal:");;
  x ← ax_get_xlim; print (Fmt lbl_ll_eastings (fst x));;
  y ← ax_get_ylim; print (Fmt lbl_ll_northings (fst y));;
  x ← ax_get_xlim;
  print (Fmt lbl_eastings
           (-100 * (ue_world_origin_bng_eastings cfg - fst x))%float);;
  y ← ax_get_ylim;
  print (Fmt lbl_northings
           (100 * (ue_world_origin_bng_northings cfg - fst y))%float);;
  x1 ← ax_get_xlim; x0 ← ax_get_xlim;
  print (Fmt lbl_width (100 * (snd x1 - fst x0))%float);;
  y1 ← ax_get_ylim; y0 ← ax_get_ylim;
  print (Fmt lbl_height (100 * (snd y1 - fst y0))%float).

(** ** The notebook, run top to bottom *)

Definition run `{Library} (cfg : Config) : M unit :=
  gdf ← cell2 cfg;
  cell4 cfg gdf;;
  cell5 cfg.

Definition empty_world : world :=
  {| stdout := []; files := ∅; figure := None |}.

(** ** The figure along cell 4

    The three states of [fig] that matter: as [gdf.plot] leaves it, as
    [export_legend] saves it, and as the texture is saved. *)

Definition plotted_figure `{Library} (cfg : Config) (a : Axes) : Figure :=
  {| figsize := (width_inches cfg, height_inches cfg);
     fig_dpi := rc_figure_dpi; subplotpars := None;
     ax := a; canvas_draws := 0; drawn_labels := None |}.

Definition legend_figure_of `{Library} (cfg : Config) (a : Axes)
    (lg : Legend) : Figure :=
  set_texts (new_labels (Some (legend_label_lookup cfg)) (legend_texts lg))
    (draw (plotted_figure cfg a)).

Definition strip `{Library} (f : Figure) : Figure :=
  adjust no_padding
    (with_ax (axis_off (set_yticks [] (set_xticks []
                (axis_scaled (with_legend None (ax f)))))) f).

(** The region [export_legend] passes to [savefig], written as one
    expression. *)
Definition crop_rectangle `{Library} (expand : float * float * float * float)
    (f : Figure) : Bbox :=
  transformed
    (from_extents (array_add (extents (get_window_extent f)) expand))
    (inverted (dpi_scale_trans f)).

(** The two images of a run: what [export_legend] and the last line of
    cell 4 hand to [savefig]. *)
Definition legend_image_of `{Library} (cfg : Config) (a : Axes)
    (lg : Legend) : Image :=
  {| img_dpi := 600;
     img_bbox := BboxRegion (crop_rectangle default_expand
                               (legend_figure_of cfg a lg));
     img_figure := legend_figure_of cfg a lg |}.

Definition texture_image_of `{Library} (cfg : Config) (a : Axes)
    (lg : Legend) : Image :=
  {| img_dpi := dpi cfg; img_bbox := BboxTight 0;
     img_figure := strip (legend_figure_of cfg a lg) |}.

(** The notebook with another resolution configured. *)
Definition with_dpi (r : float) (c : Config) : Config :=
  {| data_path := data_path c; legend_label_lookup := legend_label_lookup c;
     column_to_plot := column_to_plot c;
     legend_filename := legend_filename c;
     texture_filename := texture_filename c;
     ue_world_origin_bng_eastings := ue_world_origin_bng_eastings c;
     ue_world_origin_bng_northings := ue_world_origin_bng_northings c;
     width_inches := width_inches c; height_inches := height_inches c;
     dpi := r |}.

Definition with_data_path (path : string) (c : Config) : Config :=
  {| data_path := path; legend_label_lookup := legend_label_lookup c;
     column_to_plot := column_to_plot c;
     legend_filename := legend_filename c;
     texture_filename := texture_filename c;
     ue_world_origin_bng_eastings := ue_world_origin_bng_eastings c;
     ue_world_origin_bng_northings := ue_world_origin_bng_northings c;
     width_inches := width_inches c; height_inches := height_inches c;
     dpi := dpi c |}.

(** A figure as cell 4 leaves it, with the limits of the spec's example. *)
Definition example_figure : Figure := {|
  figsize := (12.8, 9.6)%float; fig_dpi := 100; subplotpars := Some no_padding;
  ax := {| legend_ := None;
           xlim := (500000, 560000)%float; ylim := (160000, 200000)%float;
           ax_aspect := AspectEqual; xticks := Some []; yticks := Some [];
           axison := false |};
  canvas_draws := 1; drawn_labels := None
|}.

Definition example_world : world :=
  {| stdout := []; files := ∅; figure := Some example_figure |}.

(** ** A stand-in library, to run the notebook on concrete inputs *)

(** A table is its CRS identifier and the category code of each feature. *)
Record sample_table := { st_crs : string; st_codes : list string }.

Definition sample_read_file (path : string) : result sample_table :=
  if String.eqb path "sample_data/FourLADs_2011LOAC.gpkg"
  then Ok {| st_crs := "EPSG:27700"; st_codes := ["A"; "B"; "C"] |}
  else if String.eqb path "sample_data/wgs84.gpkg"
  then Ok {| st_crs := "EPSG:4326"; st_codes := ["A"; "B"] |}
  else if String.eqb path "sample_data/unlabelled.gpkg"
  then Ok {| st_crs := "EPSG:27700"; st_codes := ["A"; "Z"; "B"] |}
  else Raise (LibraryError "no such file").

Definition sample_plot (t : sample_table) (column : string) (kw : plot_kwargs)
    (a : Axes) : result Axes :=
  if String.eqb column "Super"
  then Ok {| legend_ := Some {| legend_texts := st_codes t |};
             xlim := (500000, 560000)%float; ylim := (160000, 200000)%float;
             ax_aspect := ax_aspect a; xticks := xticks a; yticks := yticks a;
             axison := axison a |}
  else Raise (KeyError column).

Definition sample_library : Library := {|
  GeoDataFrame := sample_table;
  read_file := sample_read_file;
  crs_ne := fun t s => negb (String.eqb (st_crs t) s);
  rc_figure_dpi := 100;
  gdf_plot := sample_plot;
  get_window_extent := fun _ =>
    {| x0 := 1700; y0 := 600; x1 := 1900; y1 := 800 |}%float;
  autoscale_view := fun a => (xlim a, ylim a)
|}.

(** The axes and the world after [gdf.plot], for a table with the given
    category codes, under the stand-in library. *)
Definition sample_axes (codes : list string) : Axes :=
  {| legend_ := Some {| legend_texts := codes |};
     xlim := (500000, 560000)%float; ylim := (160000, 200000)%float;
     ax_aspect := AspectAuto; xticks := None; yticks := None; axison := true |}.

Definition sample_plotted (codes : list string) : world :=
  {| stdout := []; files := ∅;
     figure := Some (@plotted_figure sample_library notebook_config
                       (sample_axes codes)) |}.

(** ** Further configurations and stand-ins *)

(** The seven lines of cell 5, for the figure it reads. *)
Definition report_lines (cfg : Config) (f : Figure) : list line :=
  [Msg "The following information is needed to build the overlay texture in unreal:";
   Fmt lbl_ll_eastings (fst (xlim (ax f)));
   Fmt lbl_ll_northings (fst (ylim (ax f)));
   Fmt lbl_eastings
     (-100 * (ue_world_origin_bng_eastings cfg - fst (xlim (ax f))))%float;
   Fmt lbl_northings
     (100 * (ue_world_origin_bng_northings cfg - fst (ylim (ax f))))%float;
   Fmt lbl_width (100 * (snd (xlim (ax f)) - fst (xlim (ax f))))%float;
   Fmt lbl_height (100 * (snd (ylim (ax f)) - fst (ylim (ax f))))%float].

Definition with_column (column : string) (c : Config) : Config :=
  {| data_path := data_path c; legend_label_lookup := legend_label_lookup c;
     column_to_plot := column;
     legend_filename := legend_filename c;
     texture_filename := texture_filename c;
     ue_world_origin_bng_eastings := ue_world_origin_bng_eastings c;
     ue_world_origin_bng_northings := ue_world_origin_bng_northings c;
     width_inches := width_inches c; height_inches := height_inches c;
     dpi := dpi c |}.

Definition with_texture_filename (name : string) (c : Config) : Config :=
  {| data_path := data_path c; legend_label_lookup := legend_label_lookup c;
     column_to_plot := column_to_plot c;
     legend_filename := legend_filename c;
     texture_filename := name;
     ue_world_origin_bng_eastings := ue_world_origin_bng_eastings c;
     ue_world_origin_bng_northings := ue_world_origin_bng_northings c;
     width_inches := width_inches c; height_inches := height_inches c;
     dpi := dpi c |}.

Definition with_origin (e n : float) (c : Config) : Config :=
  {| data_path := data_path c; legend_label_lookup := legend_label_lookup c;
     column_to_plot := column_to_plot c;
     legend_filename := legend_filename c;
     texture_filename := texture_filename c;
     ue_world_origin_bng_eastings := e;
     ue_world_origin_bng_northings := n;
     width_inches := width_inches c; height_inches := height_inches c;
     dpi := dpi c |}.

(** A stand-in library whose plot attaches no legend. *)
Definition sample_library_no_legend : Library := {|
  GeoDataFrame := sample_table;
  read_file := sample_read_file;
  crs_ne := fun t s => negb (String.eqb (st_crs t) s);
  rc_figure_dpi := 100;
  gdf_plot := fun t column kw a =>
    Ok {| legend_ := None;
          xlim := (500000, 560000)%float; ylim := (160000, 200000)%float;
          ax_aspect := ax_aspect a; xticks := xticks a; yticks := yticks a;
          axison := axison a |};
  get_window_extent := fun _ =>
    {| x0 := 1700; y0 := 600; x1 := 1900; y1 := 800 |}%float;
  autoscale_view := fun a => (xlim a, ylim a)
|}.

(** The sample table with codes A, B, C, and its legend. *)
Definition sample_abc : sample_table :=
  {| st_crs := "EPSG:27700"; st_codes := ["A"; "B"; "C"] |}.

Definition legend_abc : Legend := {| legend_texts := ["A"; "B"; "C"] |}.

(** * Part II: theorems *)

(** ** Binary64 arithmetic

    The primitive operations are specified on [spec_float] (sign, integer
    mantissa, exponent); the facts the notebook's formulas need are proved
    there and carried back to [float]. *)

Module Binary64.

Lemma SFleb_zero x : SFleb (S754_zero false) x = SFnonneg x.
Proof. destruct x as [s|s| |s m e]; try destruct s; reflexivity. Qed.

Lemma is_finite_spec x : is_finite x = SFfinite (Prim2SF x).
Proof.
  unfold is_finite, is_nan, is_infinity.
  rewrite !FloatAxioms.eqb_spec, FloatAxioms.abs_spec.
  change (Prim2SF infinity) with (S754_infinity false).
  destruct (Prim2SF x) as [s|s| |s m e]; try destruct s; try reflexivity.
  - cbn. rewrite Z.compare_refl, Pos.compare_cont_refl. reflexivity.
  - cbn. rewrite Z.compare_refl, Pos.compare_cont_refl. reflexivity.
Qed.

Section Rounding.
Let nonneg (r : shr_record) := (0 <= shr_m r)%Z.

Lemma shr_1_nonneg r : nonneg r -> nonneg (shr_1 r).
Proof.
  destruct r as [m r s]; unfold nonneg; cbn.
  destruct m as [|p|p]; [easy| |lia]; destruct p; cbn; lia.
Qed.

Lemma iter_shr_1_nonneg p : forall r, nonneg r -> nonneg (SpecFloat.iter_pos shr_1 p r).
Proof.
  induction p as [p IH|p IH|]; intros r Hr; cbn.
  - apply IH, IH, shr_1_nonneg, Hr.
  - apply IH, IH, Hr.
  - apply shr_1_nonneg, Hr.
Qed.

Lemma shr_fexp_nonneg m e l :
  (0 <= m)%Z -> nonneg (fst (shr_fexp prec emax m e l)).
Proof.
  intros Hm. unfold shr_fexp, shr.
  assert (H0 : nonneg (shr_record_of_loc m l))
    by (destruct l as [|[ | | ]]; exact Hm).
  destruct (_ - e)%Z; cbn; auto using iter_shr_1_nonneg.
Qed.

Lemma round_nearest_even_nonneg m l :
  (0 <= m)%Z -> (0 <= round_nearest_even m l)%Z.
Proof.
  intros Hm. destruct l as [|[ | | ]]; cbn; try lia.
  destruct (Z.even m); lia.
Qed.
End Rounding.

(** Rounding a non-negative integer mantissa never produces NaN, and the
    result carries the requested sign. *)
Lemma binary_round_aux_sign s m e l :
  (0 <= m)%Z ->
  match binary_round_aux prec emax s m e l with
  | S754_zero s' | S754_infinity s' | S754_finite s' _ _ => s' = s
  | S754_nan => False
  end.
Proof.
  intros Hm. unfold binary_round_aux.
  pose proof (shr_fexp_nonneg m e l Hm) as H1.
  destruct (shr_fexp prec emax m e l) as [r1 e1]; cbn in H1.
  pose proof (shr_fexp_nonneg _ e1 loc_Exact
                (round_nearest_even_nonneg _ (loc_of_shr_record r1) H1)) as H2.
  destruct (shr_fexp prec emax _ e1 loc_Exact) as [r2 e2]; cbn in H2.
  destruct (shr_m r2) as [|p|p]; [reflexivity| |lia].
  destruct (Z.leb e2 _); reflexivity.
Qed.

Lemma binary_round_aux_opp s m e l :
  SFopp (binary_round_aux prec emax s m e l)
  = binary_round_aux prec emax (negb s) m e l.
Proof.
  unfold binary_round_aux.
  destruct (shr_fexp prec emax m e l) as [r1 e1].
  destruct (shr_fexp prec emax _ e1 loc_Exact) as [r2 e2].
  destruct (shr_m r2); [reflexivity| |reflexivity].
  destruct (Z.leb e2 _); reflexivity.
Qed.

Lemma SFmul_opp_l x y :
  SF64mul (SFopp x) y = SFopp (SF64mul x y).
Proof.
  destruct x as [sx|sx| |sx mx ex], y as [sy|sy| |sy my ey]; cbn;
    try reflexivity; try (destruct sx, sy; reflexivity).
  rewrite binary_round_aux_opp. destruct sx, sy; reflexivity.
Qed.

Lemma SFadd_opp_r x y :
  SF64add x (SFopp y) = SF64sub x y.
Proof.
  destruct x as [sx|sx| |sx mx ex], y as [sy|sy| |sy my ey]; cbn;
    try reflexivity; try (destruct sx, sy; reflexivity).
Qed.

Lemma SFmul_pos_nonneg m e y :
  SFnonneg y = true ->
  SFnonneg (SF64mul (S754_finite false m e) y) = true.
Proof.
  destruct y as [sy|sy| |sy my ey]; cbn; try easy.
  intros Hy. apply negb_true_iff in Hy; subst sy.
  pose proof (binary_round_aux_sign false (Zpos (m * my)) (e + ey) loc_Exact
                ltac:(lia)) as H.
  destruct (binary_round_aux _ _ _ _ _ _); cbn; try rewrite H; try reflexivity.
  destruct H.
Qed.

(** ** Ordering of canonical mantissas *)

Lemma digits2_pos_bounds m :
  (2 ^ (Zpos (digits2_pos m) - 1) <= Zpos m < 2 ^ Zpos (digits2_pos m))%Z.
Proof.
  induction m as [m IH|m IH|]; cbn [digits2_pos]; [| |cbn; lia].
  all: rewrite Pos2Z.inj_succ;
    replace (Z.succ (Zpos (digits2_pos m)) - 1)%Z with (Zpos (digits2_pos m)) by lia;
    rewrite Z.pow_succ_r by lia;
    replace (2 ^ Zpos (digits2_pos m))%Z
      with (2 * 2 ^ (Zpos (digits2_pos m) - 1))%Z in *
      by (rewrite <- Z.pow_succ_r by lia; f_equal; lia);
    lia.
Qed.

Lemma iter_xO_value m d :
  Zpos (Pos.iter xO m d) = (Zpos m * 2 ^ Zpos d)%Z.
Proof.
  induction d as [|d IH] using Pos.peano_ind.
  - cbn. lia.
  - rewrite Pos.iter_succ, Pos2Z.inj_xO, IH, Pos2Z.inj_succ, Z.pow_succ_r; lia.
Qed.

Lemma shl_align_value m e e' :
  (e' <= e)%Z ->
  Zpos (fst (shl_align m e e')) = (Zpos m * 2 ^ (e - e'))%Z.
Proof.
  intros He. unfold shl_align.
  destruct (e' - e)%Z as [|d|d] eqn:Hd; cbn [fst].
  - replace (e - e')%Z with 0%Z by lia. cbn. lia.
  - lia.
  - rewrite iter_xO_value. f_equal. f_equal. lia.
Qed.

Lemma bounded_digits m e :
  bounded prec emax m e = true ->
  (emin <= e)%Z /\ (Zpos (digits2_pos m) <= prec)%Z /\
  ((emin < e)%Z -> Zpos (digits2_pos m) = prec).
Proof.
  unfold bounded, canonical_mantissa, fexp.
  intros H. apply andb_true_iff in H as [H _]. apply Z.eqb_eq in H.
  change (SpecFloat.emin prec emax) with (-1074)%Z in *.
  change prec with 53%Z in *. lia.
Qed.

(** Among canonical mantissas the one with the larger exponent is the
    larger number, once both are aligned on the smaller exponent. *)
Lemma aligned_lt m1 e1 m2 e2 :
  bounded prec emax m1 e1 = true -> bounded prec emax m2 e2 = true ->
  (e1 < e2)%Z ->
  (Zpos m1 < Zpos m2 * 2 ^ (e2 - e1))%Z.
Proof.
  intros H1 H2 He.
  apply bounded_digits in H1 as (Hmin1 & Hd1 & _).
  apply bounded_digits in H2 as (_ & _ & Hd2).
  specialize (Hd2 ltac:(lia)).
  pose proof (digits2_pos_bounds m1) as [_ B1].
  pose proof (digits2_pos_bounds m2) as [B2 _].
  rewrite Hd2 in B2.
  assert (Zpos m1 < 2 ^ prec)%Z as B1'.
  { eapply Z.lt_le_trans; [exact B1|]. apply Z.pow_le_mono_r; lia. }
  assert (2 ^ 1 <= 2 ^ (e2 - e1))%Z as P by (apply Z.pow_le_mono_r; lia).
  change (2 ^ 1)%Z with 2%Z in P.
  change (2 ^ prec)%Z with (2 * 2 ^ (prec - 1))%Z in B1'.
  nia.
Qed.

Lemma SFsub_nonneg x y :
  valid_binary x = true -> valid_binary y = true ->
  SFfinite x = true -> SFfinite y = true ->
  SFleb y x = true -> SFnonneg (SF64sub x y) = true.
Proof.
  intros Vx Vy Fx Fy Hle.
  destruct x as [sx|sx| |sx mx ex], y as [sy|sy| |sy my ey];
    try discriminate.
  - destruct sx, sy; reflexivity.
  - cbn in *. destruct sy; [reflexivity|discriminate].
  - cbn in *. destruct sx; [discriminate|reflexivity].
  - cbn in Vx, Vy.
    unfold SF64sub, SFsub.
    set (ez := Z.min ex ey).
    rewrite !shl_align_value by (subst ez; lia).
    assert (0 <= cond_Zopp sx (Zpos mx * 2 ^ (ex - ez))
                 - cond_Zopp sy (Zpos my * 2 ^ (ey - ez)))%Z as Hz.
    { unfold SFleb, SFcompare in Hle.
      assert (0 < 2 ^ (ex - ez))%Z by (apply Z.pow_pos_nonneg; subst ez; lia).
      assert (0 < 2 ^ (ey - ez))%Z by (apply Z.pow_pos_nonneg; subst ez; lia).
      destruct sx, sy; cbn [cond_Zopp]; try discriminate; [|nia|];
        (destruct (Z.compare_spec ey ex) as [E|L|G]; try discriminate;
         [ subst ey; replace (ex - ez)%Z with 0%Z in * by (subst ez; lia);
           change (Pos.compare_cont Eq my mx) with (my ?= mx)%positive in Hle;
           destruct (Pos.compare_spec my mx); cbn in Hle; try discriminate;
           change (2 ^ 0)%Z with 1%Z; lia
         | ]).
      - pose proof (aligned_lt mx ex my ey Vx Vy ltac:(lia)).
        replace (ex - ez)%Z with 0%Z by (subst ez; lia).
        replace (ey - ez)%Z with (ey - ex)%Z by (subst ez; lia).
        change (2 ^ 0)%Z with 1%Z. lia.
      - pose proof (aligned_lt my ey mx ex Vy Vx ltac:(lia)).
        replace (ey - ez)%Z with 0%Z by (subst ez; lia).
        replace (ex - ez)%Z with (ex - ey)%Z by (subst ez; lia).
        change (2 ^ 0)%Z with 1%Z. lia. }
    unfold binary_normalize.
    destruct (_ - _)%Z as [|p|p]; [reflexivity| |lia].
    unfold binary_round.
    destruct (shl_align p ez _) as [mz ez'].
    pose proof (binary_round_aux_sign false (Zpos mz) ez' loc_Exact ltac:(lia)) as S.
    destruct (binary_round_aux _ _ _ _ _ _); cbn; try rewrite S; try reflexivity.
    destruct S.
Qed.

(** *** The same facts on primitive floats *)

Lemma mul_neg100 d : (-100 * d = - (100 * d))%float.
Proof.
  apply Prim2SF_inj.
  rewrite FloatAxioms.opp_spec, !FloatAxioms.mul_spec.
  change (Prim2SF (-100)) with (SFopp (Prim2SF 100)).
  apply SFmul_opp_l.
Qed.

Lemma add_opp x y : (x + - y = x - y)%float.
Proof.
  apply Prim2SF_inj.
  rewrite FloatAxioms.add_spec, FloatAxioms.opp_spec, FloatAxioms.sub_spec. apply SFadd_opp_r.
Qed.

Lemma leb_zero x : (0 <=? x)%float = SFnonneg (Prim2SF x).
Proof. rewrite FloatAxioms.leb_spec. apply SFleb_zero. Qed.

Lemma sub_nonneg a b :
  is_finite a = true -> is_finite b = true ->
  (a <=? b)%float = true -> (0 <=? b - a)%float = true.
Proof.
  rewrite !is_finite_spec, FloatAxioms.leb_spec, leb_zero, FloatAxioms.sub_spec.
  intros Fa Fb Hle.
  apply SFsub_nonneg; auto using Prim2SF_valid.
Qed.

Lemma mul100_nonneg d :
  (0 <=? d)%float = true -> (0 <=? 100 * d)%float = true.
Proof.
  rewrite !leb_zero, FloatAxioms.mul_spec. apply SFmul_pos_nonneg.
Qed.

End Binary64.

(** ** Running the monad *)

(** Unfolds the plumbing of [M] and the accessors of the world. *)
Ltac run_M :=
  unfold modify_ax, modify_fig, ax_get_xlim, ax_get_ylim, ax_get_legend,
    get_ax, get_fig, put_fig, print, raise, lift, write_file,
    set_stdout, set_files, set_figure;
  unfold mbind, M_bind, mret, M_ret; cbn.

(** ** The geo-registration report (cell 5) *)

Section Report.
Variable cfg : Config.

Let ox := ue_world_origin_bng_eastings cfg.
Let oy := ue_world_origin_bng_northings cfg.

(** What cell 5 prints, given the limits of the axes. *)
Lemma cell5_run w fig :
  figure w = Some fig ->
  cell5 cfg w =
    (Ok tt,
     set_stdout
       (stdout w ++
        [Msg "The following information is needed to build the overlay texture in unreal:";
         Fmt lbl_ll_eastings (fst (xlim (ax fig)));
         Fmt lbl_ll_northings (fst (ylim (ax fig)));
         Fmt lbl_eastings (-100 * (ox - fst (xlim (ax fig))))%float;
         Fmt lbl_northings (100 * (oy - fst (ylim (ax fig))))%float;
         Fmt lbl_width (100 * (snd (xlim (ax fig)) - fst (xlim (ax fig))))%float;
         Fmt lbl_height (100 * (snd (ylim (ax fig)) - fst (ylim (ax fig))))%float])
       w).
Proof.
  intros Hf. destruct w as [o fs f]; cbn in Hf; subst f.
  unfold cell5. run_M. rewrite <- !app_assoc. reflexivity.
Qed.

Lemma cell5_output w fig :
  figure w = Some fig ->
  output_of (cell5 cfg) w =
    [Msg "The following information is needed to build the overlay texture in unreal:";
     Fmt lbl_ll_eastings (fst (xlim (ax fig)));
     Fmt lbl_ll_northings (fst (ylim (ax fig)));
     Fmt lbl_eastings (-100 * (ox - fst (xlim (ax fig))))%float;
     Fmt lbl_northings (100 * (oy - fst (ylim (ax fig))))%float;
     Fmt lbl_width (100 * (snd (xlim (ax fig)) - fst (xlim (ax fig))))%float;
     Fmt lbl_height (100 * (snd (ylim (ax fig)) - fst (ylim (ax fig))))%float].
Proof.
  intros Hf. unfold output_of. rewrite (cell5_run w fig Hf). cbn.
  apply drop_app_length.
Qed.

(** Before cell 4 has run there is no [ax]: cell 5 prints its heading and
    stops. *)
Lemma cell5_unbound w :
  figure w = None -> fst (cell5 cfg w) = Raise (NameError "ax").
Proof.
  intros Hf. destruct w as [o fs f]; cbn in Hf; subst f. reflexivity.
Qed.

(** C1. For every final plot extent [(xmin, xmax, ymin, ymax)] and every
    world origin, cell 5 succeeds and the numbers it prints under its four
    centimetre labels are [-100 * (origin_x - xmin)],
    [100 * (origin_y - ymin)], [100 * (xmax - xmin)] and
    [100 * (ymax - ymin)]; the eastings offset is the negation of
    [100 * (origin_x - xmin)], the northings offset is not negated. *)
Theorem geo_registration_report w fig xmin xmax ymin ymax :
  figure w = Some fig ->
  xlim (ax fig) = (xmin, xmax) ->
  ylim (ax fig) = (ymin, ymax) ->
  let out := output_of (cell5 cfg) w in
  fst (cell5 cfg w) = Ok tt /\
  reported lbl_eastings out = Some (-100 * (ox - xmin))%float /\
  reported lbl_northings out = Some (100 * (oy - ymin))%float /\
  reported lbl_width out = Some (100 * (xmax - xmin))%float /\
  reported lbl_height out = Some (100 * (ymax - ymin))%float /\
  reported lbl_eastings out = Some (- (100 * (ox - xmin)))%float.
Proof.
  intros Hf Hx Hy out. subst out.
  rewrite (cell5_output w fig Hf), (cell5_run w fig Hf), Hx, Hy.
  cbn [fst snd].
  repeat split; try reflexivity.
  rewrite <- Binary64.mul_neg100. reflexivity.
Qed.

(** C4. For finite limits with [xmin <= xmax] and [ymin <= ymax], and any
    world origin, the printed texture width and height are
    [100 * (xmax - xmin)] and [100 * (ymax - ymin)], and both are
    non-negative. *)
Theorem texture_size_nonneg w fig xmin xmax ymin ymax :
  figure w = Some fig ->
  xlim (ax fig) = (xmin, xmax) ->
  ylim (ax fig) = (ymin, ymax) ->
  is_finite xmin = true -> is_finite xmax = true ->
  is_finite ymin = true -> is_finite ymax = true ->
  (xmin <=? xmax)%float = true ->
  (ymin <=? ymax)%float = true ->
  let out := output_of (cell5 cfg) w in
  exists wd ht,
    reported lbl_width out = Some wd /\
    reported lbl_height out = Some ht /\
    wd = (100 * (xmax - xmin))%float /\
    ht = (100 * (ymax - ymin))%float /\
    (0 <=? wd)%float = true /\
    (0 <=? ht)%float = true.
Proof.
  intros Hf Hx Hy Fx0 Fx1 Fy0 Fy1 Lx Ly out. subst out.
  rewrite (cell5_output w fig Hf), Hx, Hy. cbn [fst snd].
  eexists _, _. do 4 (split; [reflexivity|]).
  split; apply Binary64.mul100_nonneg, Binary64.sub_nonneg; assumption.
Qed.

End Report.

(** The spec's example: origin (532816, 180759), xmin = 500000,
    ymin = 160000. *)
Lemma geo_registration_report_example :
  reported lbl_eastings (output_of (cell5 notebook_config) example_world)
    = Some (-3281600)%float /\
  reported lbl_northings (output_of (cell5 notebook_config) example_world)
    = Some 2075900%float.
Proof.
  pose proof (geo_registration_report notebook_config example_world
                example_figure 500000 560000 160000 200000
                eq_refl eq_refl eq_refl) as (_ & He & Hn & _).
  split; [exact He | exact Hn].
Defined.

Lemma texture_size_nonneg_example :
  reported lbl_width (output_of (cell5 notebook_config) example_world)
    = Some 6000000%float /\
  reported lbl_height (output_of (cell5 notebook_config) example_world)
    = Some 4000000%float /\
  (0 <=? 6000000)%float = true /\ (0 <=? 4000000)%float = true.
Proof.
  destruct (texture_size_nonneg notebook_config example_world
              example_figure 500000 560000 160000 200000
              eq_refl eq_refl eq_refl eq_refl eq_refl eq_refl eq_refl
              eq_refl eq_refl) as (wd & ht & Hw & Hh & -> & -> & Pw & Ph).
  split; [exact Hw|]. split; [exact Hh|]. split; [exact Pw | exact Ph].
Defined.

(** Finiteness matters: with both limits at [+inf] the width is NaN, which
    is not [>= 0].  Matplotlib refuses such limits. *)
Example width_of_infinite_limits :
  (infinity <=? infinity)%float = true /\
  (0 <=? 100 * (infinity - infinity))%float = false.
Proof. split; reflexivity. Qed.

(** ** The legend extractor (cell 3) *)

Section ExportLegend.
Context `{L : Library}.

Lemma set_texts_same fig ts :
  legend_ (ax fig) = Some {| legend_texts := ts |} -> set_texts ts fig = fig.
Proof.
  destruct fig as [sz r sp a n dl], a as [lg xl yl asp xt yt on]; cbn.
  intros ->. reflexivity.
Qed.

Lemma set_figure_same w fig : figure w = Some fig -> set_figure (Some fig) w = w.
Proof. destruct w; cbn; intros ->; reflexivity. Qed.

(** The loop replaces every label when every label has an entry. *)
Lemma relabel_ok d labels : forall pre w fig,
  figure w = Some fig ->
  legend_ (ax fig) = Some {| legend_texts := pre ++ labels |} ->
  Forall (fun t => is_Some (d !! t)) labels ->
  relabel PyLegend d (length pre) labels w =
    (Ok tt,
     set_figure (Some (set_texts (pre ++ map (fun t => d !!! t) labels) fig)) w).
Proof.
  induction labels as [|t rest IH]; intros pre w fig Hf Hl Hall.
  - cbn. rewrite set_texts_same, set_figure_same by assumption. reflexivity.
  - apply Forall_cons in Hall as [[s Hs] Hall].
    assert (E : <[length pre := s]> (pre ++ t :: rest)%list = (pre ++ s :: rest)%list).
    { rewrite insert_app_r_alt, Nat.sub_diag by lia. reflexivity. }
    destruct w as [o fs f]; cbn in Hf; subst f.
    cbn [relabel]. rewrite Hs.
    unfold set_text, deref. run_M. rewrite Hl. cbn. rewrite E.
    specialize (IH (pre ++ [s])%list
                  {| stdout := o; files := fs;
                     figure := Some (set_texts (pre ++ s :: rest)%list fig) |}
                  (set_texts (pre ++ s :: rest)%list fig)).
    rewrite length_app, Nat.add_1_r in IH.
    rewrite IH; [|reflexivity|cbn; rewrite <- app_assoc; reflexivity|assumption].
    rewrite <- app_assoc. cbn.
    rewrite (lookup_total_correct _ _ _ Hs). reflexivity.
Qed.

(** The loop stops at a label without an entry; nothing is written. *)
Lemma relabel_missing d labels : forall i w fig lg,
  figure w = Some fig ->
  legend_ (ax fig) = Some lg ->
  Exists (fun t => d !! t = None) labels ->
  exists k w',
    k ∈ labels /\ d !! k = None /\
    relabel PyLegend d i labels w = (Raise (KeyError k), w') /\
    files w' = files w /\ stdout w' = stdout w.
Proof.
  induction labels as [|t rest IH]; intros i w fig lg Hf Hl Hex.
  - inversion Hex.
  - cbn [relabel]. destruct (d !! t) as [s|] eqn:Hs.
    + apply Exists_cons in Hex as [Hex|Hex]; [congruence|].
      destruct w as [o fs f]; cbn in Hf; subst f.
      unfold set_text, deref. run_M. rewrite Hl. cbn.
      edestruct (IH (S i)
                   {| stdout := o; files := fs;
                      figure := Some (set_texts (<[i:=s]> (legend_texts lg)) fig) |})
        as (k & w' & Hk & Hd & Hr & Hfs & Ho); [reflexivity|reflexivity|exact Hex|].
      exists k, w'. rewrite Hr. repeat split; auto. now right.
    + exists t, w. repeat split; auto. now left.
Qed.
End ExportLegend.

Section ExportLegendRuns.
Context `{L : Library}.
Variables (w : world) (fig : Figure) (lg : Legend).
Hypothesis Hfig : figure w = Some fig.
Hypothesis Hleg : legend_ (ax fig) = Some lg.

(** A successful export: one draw, the labels replaced, one file written. *)
Lemma export_legend_run filename od expand :
  match od with
  | Some d => Forall (fun t => is_Some (d !! t)) (legend_texts lg)
  | None => True
  end ->
  let fig' := set_texts (new_labels od (legend_texts lg)) (draw fig) in
  export_legend PyLegend filename od expand w =
    (Ok tt,
     set_files
       (<[filename := {| img_dpi := 600;
                         img_bbox := BboxRegion (crop_rectangle expand fig');
                         img_figure := fig' |}]> (files w))
       (set_figure (Some fig') w)).
Proof.
  intros Hall fig'. subst fig'. unfold crop_rectangle.
  destruct lg as [ts]. destruct w as [o fs f]; cbn in Hfig; subst f.
  unfold export_legend, legend_figure, canvas_draw, get_texts, savefig, deref.
  run_M. rewrite Hleg. cbn.
  destruct od as [d|]; cbn; rewrite ?Hleg; cbn.
  - pose proof (relabel_ok d ts []
                  {| stdout := o; files := fs; figure := Some (draw fig) |}
                  (draw fig) eq_refl Hleg Hall) as R.
    cbn in R. rewrite R. cbn. reflexivity.
  - rewrite (set_texts_same (draw fig) ts) by exact Hleg. reflexivity.
Qed.

(** A label without an entry: the export stops in the loop, before the
    extent is measured and before [savefig]. *)
Lemma export_legend_missing filename d expand :
  Exists (fun t => d !! t = None) (legend_texts lg) ->
  exists k w',
    k ∈ legend_texts lg /\ d !! k = None /\
    export_legend PyLegend filename (Some d) expand w
      = (Raise (KeyError k), w') /\
    files w' = files w /\ stdout w' = stdout w.
Proof.
  intros Hex.
  destruct w as [o fs f] eqn:Ew; cbn in Hfig; subst f.
  destruct (relabel_missing d (legend_texts lg) 0
              {| stdout := o; files := fs; figure := Some (draw fig) |}
              (draw fig) lg eq_refl Hleg Hex)
    as (k & w' & Hk & Hd & Hr & Hfs & Ho).
  exists k, w'. split; [exact Hk|]. split; [exact Hd|].
  unfold export_legend, legend_figure, canvas_draw, get_texts, deref.
  run_M. rewrite Hleg. cbn. rewrite Hleg. cbn. rewrite Hr. cbn.
  split; [reflexivity|]. split; [exact Hfs|exact Ho].
Qed.

(** C2. Whenever some category shown in the legend has no entry in the
    label map, [export_legend] raises [KeyError] (the spec's
    [LabelLookupError]) for such a category: the export stops there, the
    entry is not skipped, and no file is written. *)
Theorem export_legend_label_lookup_error filename d expand :
  Exists (fun t => d !! t = None) (legend_texts lg) ->
  exists k,
    k ∈ legend_texts lg /\ d !! k = None /\
    fst (export_legend PyLegend filename (Some d) expand w)
      = Raise (KeyError k) /\
    files (snd (export_legend PyLegend filename (Some d) expand w)) = files w.
Proof.
  intros Hex.
  destruct (export_legend_missing filename d expand Hex)
    as (k & w' & Hk & Hd & Hr & Hfs & _).
  exists k. rewrite Hr. cbn. auto.
Qed.

(** The order of events in a successful export, read off the figure that
    [export_legend] hands to [savefig]: by then the notebook has called
    [fig.canvas.draw()] exactly once, when the labels were still those of
    the plot; the labels have been replaced since; and the region saved is
    computed from [get_window_extent] on the figure in that state.  Whether
    the measurement reflects the replaced labels is up to
    [get_window_extent]. *)
Lemma export_legend_order filename od expand :
  match od with
  | Some d => Forall (fun t => is_Some (d !! t)) (legend_texts lg)
  | None => True
  end ->
  exists img,
    files (snd (export_legend PyLegend filename od expand w)) !! filename
      = Some img /\
    canvas_draws (img_figure img) = S (canvas_draws fig) /\
    drawn_labels (img_figure img) = Some (legend_texts lg) /\
    legend_ (ax (img_figure img)) =
      Some {| legend_texts := new_labels od (legend_texts lg) |} /\
    img_bbox img = BboxRegion (crop_rectangle expand (img_figure img)).
Proof.
  intros Hall. rewrite (export_legend_run filename od expand Hall). cbn.
  rewrite lookup_insert_eq.
  eexists. split; [reflexivity|]. cbn. rewrite Hleg. cbn.
  repeat split; reflexivity.
Qed.

(** C7. The region [export_legend] saves is the legend's window extent in
    canvas pixels, moved out by 5 pixels on each of the four sides, then
    scaled to inches by the inverse of the figure's dpi; the file written
    holds that region, and no other file is touched. *)
Theorem legend_crop_rectangle filename od :
  match od with
  | Some d => Forall (fun t => is_Some (d !! t)) (legend_texts lg)
  | None => True
  end ->
  let w' := snd (export_legend PyLegend filename od default_expand w) in
  exists fig',
    figure w' = Some fig' /\
    fig_dpi fig' = fig_dpi fig /\
    let b := get_window_extent fig' in
    let r := fig_dpi fig' in
    files w' =
      <[filename :=
          {| img_dpi := 600;
             img_bbox :=
               BboxRegion {| x0 := 1 / r * (x0 b - 5); y0 := 1 / r * (y0 b - 5);
                             x1 := 1 / r * (x1 b + 5); y1 := 1 / r * (y1 b + 5)
                          |}%float;
             img_figure := fig' |}]> (files w).
Proof.
  intros Hall w'. subst w'.
  rewrite (export_legend_run filename od default_expand Hall). cbn.
  eexists. split; [reflexivity|]. split; [reflexivity|].
  cbn. unfold crop_rectangle, transformed, inverted, dpi_scale_trans, scale. cbn.
  rewrite <- !(Binary64.add_opp _ 5). reflexivity.
Qed.

End ExportLegendRuns.

(** ** The whole notebook *)

Section Pipeline.
Context `{L : Library}.
Variables (cfg : Config) (gdf : GeoDataFrame).

#[local] Arguments export_legend : simpl never.
#[local] Arguments cell4 : simpl never.
#[local] Arguments cell5 : simpl never.

(** Cell 2 returns the table whatever the CRS check says; a mismatch only
    prints. *)
Lemma cell2_run w :
  read_file (data_path cfg) = Ok gdf ->
  cell2 cfg w =
    (Ok gdf,
     if crs_ne gdf expected_crs
     then set_stdout (stdout w ++ [Msg crs_warning]) w else w).
Proof.
  intros Hread. unfold cell2. run_M. rewrite Hread.
  destruct (crs_ne gdf expected_crs); reflexivity.
Qed.

Lemma cell2_read_error w e :
  read_file (data_path cfg) = Raise e -> cell2 cfg w = (Raise e, w).
Proof. intros Hread. unfold cell2. run_M. rewrite Hread. reflexivity. Qed.

Section Plotted.
Variables (a : Axes) (lg : Legend).
Hypothesis Hplot :
  gdf_plot gdf (column_to_plot cfg) notebook_plot_kwargs new_axes = Ok a.
Hypothesis Hleg : legend_ a = Some lg.
Hypothesis Hall :
  Forall (fun t => is_Some (legend_label_lookup cfg !! t)) (legend_texts lg).

#[local] Arguments valid_dpi : simpl never.

(** Cell 4 on a table that plots with a fully labelled legend: the legend
    image is written first; the texture image is written if [savefig]
    accepts the configured resolution, else cell 4 stops there. *)
Lemma cell4_run w :
  cell4 cfg gdf w =
    (if valid_dpi (dpi cfg) then Ok tt else Raise savefig_refused,
     {| stdout := stdout w;
        files :=
          if valid_dpi (dpi cfg)
          then <[texture_filename cfg := texture_image_of cfg a lg]>
                 (<[legend_filename cfg := legend_image_of cfg a lg]> (files w))
          else <[legend_filename cfg := legend_image_of cfg a lg]> (files w);
        figure := Some (strip (legend_figure_of cfg a lg)) |}).
Proof.
  unfold cell4, plt_figure, plot, legend_remove, subplots_adjust, savefig, deref.
  destruct w as [o fs f].
  run_M. rewrite Hplot. cbn. rewrite Hleg. cbn.
  pose proof (export_legend_run
                {| stdout := o; files := fs;
                   figure := Some (plotted_figure cfg a) |}
                (plotted_figure cfg a) lg eq_refl Hleg
                (legend_filename cfg) (Some (legend_label_lookup cfg))
                default_expand Hall) as E.
  match goal with
  | |- context [export_legend ?l ?n ?d ?e ?W] =>
      change (export_legend l n d e W)
        with (export_legend l n d e
                {| stdout := o; files := fs;
                   figure := Some (plotted_figure cfg a) |})
  end.
  cbv zeta in E. rewrite E. cbn.
  destruct (valid_dpi (dpi cfg)); reflexivity.
Qed.

(** The whole run on such a table. *)
Lemma run_result w :
  read_file (data_path cfg) = Ok gdf ->
  run cfg w =
    (if valid_dpi (dpi cfg) then Ok tt else Raise savefig_refused,
     {| stdout :=
          stdout w ++
          (if crs_ne gdf expected_crs then [Msg crs_warning] else []) ++
          (if valid_dpi (dpi cfg)
           then report_lines cfg (strip (legend_figure_of cfg a lg)) else []);
        files :=
          if valid_dpi (dpi cfg)
          then <[texture_filename cfg := texture_image_of cfg a lg]>
                 (<[legend_filename cfg := legend_image_of cfg a lg]> (files w))
          else <[legend_filename cfg := legend_image_of cfg a lg]> (files w);
        figure := Some (strip (legend_figure_of cfg a lg)) |}).
Proof.
  intros Hread.
  assert (R : run cfg w =
    match cell2 cfg w with
    | (Ok g, w1) =>
        match cell4 cfg g w1 with
        | (Ok _, w2) => cell5 cfg w2
        | (Raise e, w2) => (Raise e, w2)
        end
    | (Raise e, w1) => (Raise e, w1)
    end) by reflexivity.
  rewrite R, (cell2_run w Hread), cell4_run.
  destruct (valid_dpi (dpi cfg)).
  - erewrite cell5_run by reflexivity.
    unfold report_lines, set_stdout.
    destruct (crs_ne gdf expected_crs); cbn; rewrite <- ?app_assoc; reflexivity.
  - destruct (crs_ne gdf expected_crs); cbn; rewrite ?app_nil_r; reflexivity.
Qed.

End Plotted.
End Pipeline.

(** ** Runs that stop early *)

Lemma run_unfold `{L : Library} cfg w :
  run cfg w =
    match cell2 cfg w with
    | (Ok gdf, w1) =>
        match cell4 cfg gdf w1 with
        | (Ok _, w2) => cell5 cfg w2
        | (Raise e, w2) => (Raise e, w2)
        end
    | (Raise e, w1) => (Raise e, w1)
    end.
Proof. reflexivity. Qed.

Section Cell4Failures.
Context `{L : Library}.
Variables (cfg : Config) (gdf : GeoDataFrame) (w : world).

#[local] Arguments export_legend : simpl never.

(** An exception out of [gdf.plot] ends cell 4 before either [savefig]. *)
Lemma cell4_plot_error e :
  gdf_plot gdf (column_to_plot cfg) notebook_plot_kwargs new_axes = Raise e ->
  exists w', cell4 cfg gdf w = (Raise e, w') /\ files w' = files w.
Proof.
  intros Hplot. unfold cell4, plt_figure, plot. run_M. rewrite Hplot. cbn.
  eexists. split; reflexivity.
Qed.

(** A plot without a legend: [ax.get_legend()] is [None], and
    [export_legend] fails on its first line. *)
Lemma cell4_no_legend a :
  gdf_plot gdf (column_to_plot cfg) notebook_plot_kwargs new_axes = Ok a ->
  legend_ a = None ->
  exists w',
    cell4 cfg gdf w =
      (Raise (AttributeError "'NoneType' object has no attribute 'figure'"), w')
    /\ files w' = files w.
Proof.
  intros Hplot Hleg.
  unfold cell4, plt_figure, plot. run_M. rewrite Hplot. cbn. rewrite Hleg.
  unfold export_legend, legend_figure, deref. run_M.
  eexists. split; reflexivity.
Qed.

(** A legend entry without a label: cell 4 ends in [export_legend]. *)
Lemma cell4_label_missing a lg :
  gdf_plot gdf (column_to_plot cfg) notebook_plot_kwargs new_axes = Ok a ->
  legend_ a = Some lg ->
  Exists (fun t => legend_label_lookup cfg !! t = None) (legend_texts lg) ->
  exists k w',
    k ∈ legend_texts lg /\ legend_label_lookup cfg !! k = None /\
    cell4 cfg gdf w = (Raise (KeyError k), w') /\ files w' = files w.
Proof.
  intros Hplot Hleg Hex.
  destruct (export_legend_missing
              {| stdout := stdout w; files := files w;
                 figure := Some (plotted_figure cfg a) |}
              (plotted_figure cfg a) lg eq_refl Hleg
              (legend_filename cfg) (legend_label_lookup cfg) default_expand Hex)
    as (k & w' & Hk & Hd & Hr & Hfs & _).
  exists k, w'. split; [exact Hk|]. split; [exact Hd|].
  unfold cell4, plt_figure, plot. run_M. rewrite Hplot. cbn. rewrite Hleg. cbn.
  match goal with
  | |- context [export_legend ?l ?n ?d ?e ?W] =>
      change (export_legend l n d e W)
        with (export_legend l n d e
                {| stdout := stdout w; files := files w;
                   figure := Some (plotted_figure cfg a) |})
  end.
  rewrite Hr. cbn. split; [reflexivity|exact Hfs].
Qed.

End Cell4Failures.

Section Failures.
Context `{L : Library}.
Variables (cfg : Config) (gdf : GeoDataFrame) (w : world).
Hypothesis Hread : read_file (data_path cfg) = Ok gdf.

Let w1 : world :=
  if crs_ne gdf expected_crs
  then set_stdout (stdout w ++ [Msg crs_warning]) w else w.

Lemma files_after_cell2 : files w1 = files w.
Proof. subst w1. destruct (crs_ne _ _); reflexivity. Qed.

(** Whatever stops cell 4 stops the run, with the files cell 4 left. *)
Lemma run_cell4_error e w' :
  cell4 cfg gdf w1 = (Raise e, w') -> run cfg w = (Raise e, w').
Proof.
  intros H4. rewrite run_unfold, (cell2_run cfg gdf w Hread). fold w1.
  rewrite H4. reflexivity.
Qed.

Lemma run_plot_error e :
  gdf_plot gdf (column_to_plot cfg) notebook_plot_kwargs new_axes = Raise e ->
  fst (run cfg w) = Raise e /\ files (snd (run cfg w)) = files w.
Proof.
  intros Hplot.
  destruct (cell4_plot_error cfg gdf w1 e Hplot) as (w' & H4 & Hfs).
  rewrite (run_cell4_error e w' H4). cbn.
  split; [reflexivity|]. rewrite Hfs. apply files_after_cell2.
Qed.

Lemma run_no_legend a :
  gdf_plot gdf (column_to_plot cfg) notebook_plot_kwargs new_axes = Ok a ->
  legend_ a = None ->
  fst (run cfg w)
    = Raise (AttributeError "'NoneType' object has no attribute 'figure'") /\
  files (snd (run cfg w)) = files w.
Proof.
  intros Hplot Hleg.
  destruct (cell4_no_legend cfg gdf w1 a Hplot Hleg) as (w' & H4 & Hfs).
  rewrite (run_cell4_error _ w' H4). cbn.
  split; [reflexivity|]. rewrite Hfs. apply files_after_cell2.
Qed.

Lemma run_label_missing a lg :
  gdf_plot gdf (column_to_plot cfg) notebook_plot_kwargs new_axes = Ok a ->
  legend_ a = Some lg ->
  Exists (fun t => legend_label_lookup cfg !! t = None) (legend_texts lg) ->
  exists k,
    k ∈ legend_texts lg /\ legend_label_lookup cfg !! k = None /\
    fst (run cfg w) = Raise (KeyError k) /\
    files (snd (run cfg w)) = files w.
Proof.
  intros Hplot Hleg Hex.
  destruct (cell4_label_missing cfg gdf w1 a lg Hplot Hleg Hex)
    as (k & w' & Hk & Hd & H4 & Hfs).
  exists k. rewrite (run_cell4_error _ w' H4). cbn.
  repeat split; auto. rewrite Hfs. apply files_after_cell2.
Qed.

End Failures.

Lemma run_read_error `{L : Library} cfg w e :
  read_file (data_path cfg) = Raise e -> run cfg w = (Raise e, w).
Proof.
  intros Hread. unfold run. unfold mbind at 1 2, M_bind.
  rewrite (cell2_read_error cfg w e Hread). reflexivity.
Qed.

(** ** Claims on the whole run *)

Section RunClaims.
Context `{L : Library}.
Variables (cfg : Config) (gdf : GeoDataFrame) (a : Axes) (lg : Legend).
Variable w : world.
Hypothesis Hread : read_file (data_path cfg) = Ok gdf.
Hypothesis Hplot :
  gdf_plot gdf (column_to_plot cfg) notebook_plot_kwargs new_axes = Ok a.
Hypothesis Hleg : legend_ a = Some lg.
Hypothesis Hall :
  Forall (fun t => is_Some (legend_label_lookup cfg !! t)) (legend_texts lg).

(** C5. When the CRS of the loaded table differs from EPSG:27700, cell 2
    prints its warning and nothing else changes.  On a table that plots with
    a fully labelled legend, with a resolution [savefig] accepts and two
    different filenames, the run completes, the warning is the first line
    printed, the legend filename holds the legend image and the texture
    filename holds the texture image. *)
Theorem crs_mismatch_is_not_fatal :
  crs_ne gdf expected_crs = true ->
  valid_dpi (dpi cfg) = true ->
  legend_filename cfg <> texture_filename cfg ->
  fst (run cfg w) = Ok tt /\
  head (output_of (run cfg) w) = Some (Msg crs_warning) /\
  files (snd (run cfg w)) !! legend_filename cfg
    = Some (legend_image_of cfg a lg) /\
  files (snd (run cfg w)) !! texture_filename cfg
    = Some (texture_image_of cfg a lg).
Proof.
  intros Hcrs Hdpi Hne.
  unfold output_of.
  rewrite (run_result cfg gdf a lg Hplot Hleg Hall w Hread), Hcrs, Hdpi.
  cbn [fst snd stdout files].
  split; [reflexivity|].
  split; [rewrite drop_app_length; reflexivity|].
  split.
  - rewrite lookup_insert_ne, lookup_insert_eq by congruence. reflexivity.
  - rewrite lookup_insert_eq. reflexivity.
Qed.

(** C8, as the code has it. Whatever resolution is configured, accepted by
    [savefig] or not, the legend image is saved at 600 dpi, the value
    written into [export_legend]: on a table that plots with a fully
    labelled legend, that is what the legend filename holds after the run,
    the texture filename being a different one. *)
Theorem legend_saved_at_600_dpi :
  legend_filename cfg <> texture_filename cfg ->
  exists img,
    files (snd (run cfg w)) !! legend_filename cfg = Some img /\
    img_dpi img = 600%float.
Proof.
  intros Hne.
  rewrite (run_result cfg gdf a lg Hplot Hleg Hall w Hread). cbn [snd files].
  exists (legend_image_of cfg a lg). split; [|reflexivity].
  destruct (valid_dpi (dpi cfg)).
  - rewrite lookup_insert_ne, lookup_insert_eq by congruence. reflexivity.
  - rewrite lookup_insert_eq. reflexivity.
Qed.

End RunClaims.

(** ** The claims at concrete inputs *)

(** A legend showing A, Z, B against the notebook's label map, which has no
    entry for Z. *)
Lemma export_legend_label_lookup_error_example :
  exists k,
    k ∈ ["A"; "Z"; "B"] /\ notebook_label_lookup !! k = None /\
    fst (@export_legend sample_library PyLegend "legend.png"
           (Some notebook_label_lookup) default_expand
           (sample_plotted ["A"; "Z"; "B"]))
      = Raise (KeyError k) /\
    files (snd (@export_legend sample_library PyLegend "legend.png"
                  (Some notebook_label_lookup) default_expand
                  (sample_plotted ["A"; "Z"; "B"]))) = ∅.
Proof.
  apply (@export_legend_label_lookup_error sample_library
           (sample_plotted ["A"; "Z"; "B"]) _ {| legend_texts := ["A"; "Z"; "B"] |}
           eq_refl eq_refl "legend.png" notebook_label_lookup default_expand).
  apply Exists_cons; right. apply Exists_cons; left. reflexivity.
Defined.

Example export_legend_stops_at_Z :
  fst (@export_legend sample_library PyLegend "legend.png"
         (Some notebook_label_lookup) default_expand
         (sample_plotted ["A"; "Z"; "B"]))
    = Raise (KeyError "Z").
Proof. vm_compute. reflexivity. Qed.

(** The stand-in library measures the legend at (1700, 600)-(1900, 800)
    pixels on a 100 dpi canvas. *)
Lemma legend_crop_rectangle_example :
  exists img,
    files (snd (@export_legend sample_library PyLegend "legend.png"
                  (Some notebook_label_lookup) default_expand
                  (sample_plotted ["A"; "B"; "C"]))) !! "legend.png"
      = Some img /\
    img_bbox img =
      BboxRegion {| x0 := 1 / 100 * (1700 - 5); y0 := 1 / 100 * (600 - 5);
                    x1 := 1 / 100 * (1900 + 5); y1 := 1 / 100 * (800 + 5)
                 |}%float.
Proof.
  assert (Hall : Forall (fun t => is_Some (notebook_label_lookup !! t))
                   ["A"; "B"; "C"]).
  { repeat (apply Forall_cons_2; [eexists; reflexivity|]). apply Forall_nil_2. }
  destruct (@legend_crop_rectangle sample_library
              (sample_plotted ["A"; "B"; "C"]) _
              {| legend_texts := ["A"; "B"; "C"] |} eq_refl eq_refl
              "legend.png" (Some notebook_label_lookup) Hall)
    as (fig' & _ & Hdpi & Hfiles).
  cbv zeta in Hfiles. rewrite Hfiles, lookup_insert_eq.
  eexists. split; [reflexivity|]. cbn [img_bbox]. rewrite Hdpi. reflexivity.
Defined.

(** A table in EPSG:4326 under the stand-in library. *)
Lemma crs_mismatch_is_not_fatal_example :
  let cfg := with_data_path "sample_data/wgs84.gpkg" notebook_config in
  fst (@run sample_library cfg empty_world) = Ok tt /\
  head (output_of (@run sample_library cfg) empty_world)
    = Some (Msg crs_warning) /\
  files (snd (@run sample_library cfg empty_world))
    !! "images/FourLADs_LOAC_legend.png"
    = Some (@legend_image_of sample_library cfg (sample_axes ["A"; "B"])
              {| legend_texts := ["A"; "B"] |}) /\
  files (snd (@run sample_library cfg empty_world))
    !! "images/FourLADs_LOAC_texture.png"
    = Some (@texture_image_of sample_library cfg (sample_axes ["A"; "B"])
              {| legend_texts := ["A"; "B"] |}).
Proof.
  intros cfg.
  apply (@crs_mismatch_is_not_fatal sample_library cfg
           {| st_crs := "EPSG:4326"; st_codes := ["A"; "B"] |}
           (sample_axes ["A"; "B"]) {| legend_texts := ["A"; "B"] |}
           empty_world eq_refl eq_refl eq_refl).
  - repeat (apply Forall_cons_2; [eexists; reflexivity|]). apply Forall_nil_2.
  - reflexivity.
  - reflexivity.
  - discriminate.
Defined.

(** The notebook with [dpi = 300] configured. *)
Lemma legend_saved_at_600_dpi_example :
  let cfg := with_dpi 300 notebook_config in
  exists img,
    files (snd (@run sample_library cfg empty_world))
      !! "images/FourLADs_LOAC_legend.png" = Some img /\
    img_dpi img = 600%float.
Proof.
  intros cfg.
  apply (@legend_saved_at_600_dpi sample_library cfg
           {| st_crs := "EPSG:27700"; st_codes := ["A"; "B"; "C"] |}
           (sample_axes ["A"; "B"; "C"]) {| legend_texts := ["A"; "B"; "C"] |}
           empty_world eq_refl eq_refl eq_refl).
  - repeat (apply Forall_cons_2; [eexists; reflexivity|]). apply Forall_nil_2.
  - discriminate.
Defined.

(** With [dpi = 0] configured the texture save is refused: the run raises
    after the legend image has been written at 600 dpi, and there is no
    texture file. *)
Example run_with_dpi_zero :
  let w' := snd (@run sample_library (with_dpi 0 notebook_config) empty_world) in
  fst (@run sample_library (with_dpi 0 notebook_config) empty_world)
    = Raise savefig_refused /\
  img_dpi <$> (files w' !! "images/FourLADs_LOAC_legend.png") = Some 600%float /\
  files w' !! "images/FourLADs_LOAC_texture.png" = None.
Proof. vm_compute. repeat split; reflexivity. Qed.

(** C8 as stated fails: with 300 dpi configured the legend image is not
    saved at 300 dpi. *)
Lemma legend_dpi_is_not_the_configured_one :
  let cfg := with_dpi 300 notebook_config in
  exists img,
    files (snd (@run sample_library cfg empty_world)) !! legend_filename cfg
      = Some img /\
    img_dpi img <> dpi cfg.
Proof.
  intros cfg. eexists. split; [vm_compute; reflexivity|].
  cbn. intros H.
  apply (f_equal (fun x => (x <=? 300)%float)) in H. discriminate H.
Qed.

(** The canvas of the notebook: 12.8 by 9.6 inches at 600 dpi is 7680 by
    5760 pixels, exactly, in binary64.  The notebook itself never forms
    these products, and saves the texture with [bbox_inches='tight']. *)
Example notebook_canvas_pixels :
  (width_inches notebook_config * dpi notebook_config = 7680)%float /\
  (height_inches notebook_config * dpi notebook_config = 5760)%float.
Proof. split; reflexivity. Qed.

(** * Part III: further properties of the notebook *)

(** ** More binary64 facts *)

Module Binary64Signs.

Lemma SFsub_diag x : SFfinite x = true -> SF64sub x x = S754_zero false.
Proof.
  destruct x as [s|s| |s m e]; try discriminate; intros _.
  - destruct s; reflexivity.
  - unfold SF64sub, SFsub. rewrite Z.sub_diag. reflexivity.
Qed.

Lemma SFleb_opp_zero x :
  SFnonneg x = true -> SFleb (SFopp x) (S754_zero false) = true.
Proof.
  destruct x as [s|s| |s m e]; try discriminate; destruct s;
    try discriminate; reflexivity.
Qed.

(** [x - x] is [+0.0] for every finite [x]. *)
Lemma sub_diag x : is_finite x = true -> (x - x = 0)%float.
Proof.
  rewrite Binary64.is_finite_spec. intros F.
  apply Prim2SF_inj. rewrite FloatAxioms.sub_spec, (SFsub_diag _ F).
  reflexivity.
Qed.

Lemma opp_nonneg x : (0 <=? x)%float = true -> (- x <=? 0)%float = true.
Proof.
  rewrite Binary64.leb_zero, FloatAxioms.leb_spec, FloatAxioms.opp_spec.
  apply SFleb_opp_zero.
Qed.

End Binary64Signs.

(** ** The report, continued *)

Section ReportEdges.
Variable cfg : Config.
Variables (w : world) (fig : Figure).
Hypothesis Hfig : figure w = Some fig.

Let ox := ue_world_origin_bng_eastings cfg.
Let oy := ue_world_origin_bng_northings cfg.

(** Sign convention.  With the world origin at or beyond the lower-left
    corner of the plot in both directions (finite numbers, [xmin <= ox] and
    [ymin <= oy]), the eastings offset printed is [<= 0] and the northings
    offset is [>= 0]. *)
Theorem offsets_signs :
  is_finite ox = true -> is_finite (fst (xlim (ax fig))) = true ->
  is_finite oy = true -> is_finite (fst (ylim (ax fig))) = true ->
  (fst (xlim (ax fig)) <=? ox)%float = true ->
  (fst (ylim (ax fig)) <=? oy)%float = true ->
  exists e n,
    reported lbl_eastings (output_of (cell5 cfg) w) = Some e /\
    reported lbl_northings (output_of (cell5 cfg) w) = Some n /\
    (e <=? 0)%float = true /\ (0 <=? n)%float = true.
Proof.
  intros Fox Fx Foy Fy Lx Ly.
  rewrite (cell5_output cfg w fig Hfig).
  eexists _, _. split; [reflexivity|]. split; [reflexivity|]. split.
  - rewrite Binary64.mul_neg100.
    apply Binary64Signs.opp_nonneg, Binary64.mul100_nonneg, Binary64.sub_nonneg;
      assumption.
  - apply Binary64.mul100_nonneg, Binary64.sub_nonneg; assumption.
Qed.

(** The origin on the lower-left corner itself: the northings offset is
    [0.0], the eastings offset is the negative zero [-0.0]. *)
Theorem offsets_at_corner :
  is_finite ox = true -> is_finite oy = true ->
  fst (xlim (ax fig)) = ox -> fst (ylim (ax fig)) = oy ->
  reported lbl_eastings (output_of (cell5 cfg) w) = Some neg_zero /\
  reported lbl_northings (output_of (cell5 cfg) w) = Some zero.
Proof.
  intros Fox Foy Hx Hy.
  rewrite (cell5_output cfg w fig Hfig), Hx, Hy. cbn.
  fold ox oy.
  rewrite (Binary64Signs.sub_diag ox Fox), (Binary64Signs.sub_diag oy Foy).
  split; reflexivity.
Qed.

(** Cell 5 only reads and prints: it returns normally, adds seven lines to
    the output, the second and third being the lower-left limits as they
    are, and leaves the files and the figure untouched. *)
Theorem report_only_prints :
  fst (cell5 cfg w) = Ok tt /\
  files (snd (cell5 cfg w)) = files w /\
  figure (snd (cell5 cfg w)) = figure w /\
  length (output_of (cell5 cfg) w) = 7 /\
  reported lbl_ll_eastings (output_of (cell5 cfg) w)
    = Some (fst (xlim (ax fig))) /\
  reported lbl_ll_northings (output_of (cell5 cfg) w)
    = Some (fst (ylim (ax fig))).
Proof.
  rewrite (cell5_output cfg w fig Hfig), (cell5_run cfg w fig Hfig).
  cbn. repeat split; reflexivity.
Qed.

End ReportEdges.

(** Cell 5 run before cell 4 has bound [ax]: the heading is printed, then
    the first read of [ax] raises [NameError]; nothing else is printed and
    no file is touched. *)
Theorem report_before_plot cfg w :
  figure w = None ->
  fst (cell5 cfg w) = Raise (NameError "ax") /\
  output_of (cell5 cfg) w =
    [Msg "The following information is needed to build the overlay texture in unreal:"] /\
  files (snd (cell5 cfg w)) = files w.
Proof.
  intros Hf. destruct w as [o fs f]; cbn in Hf; subst f.
  unfold output_of, cell5. run_M.
  split; [reflexivity|]. split; [apply drop_app_length|reflexivity].
Qed.

(** ** The legend extractor, continued *)

Section RelabelStops.
Context `{L : Library}.

Lemma relabel_stops d k post pre : forall pre0 w fig,
  figure w = Some fig ->
  legend_ (ax fig) = Some {| legend_texts := pre0 ++ pre ++ k :: post |} ->
  Forall (fun t => is_Some (d !! t)) pre ->
  d !! k = None ->
  relabel PyLegend d (length pre0) (pre ++ k :: post) w =
    (Raise (KeyError k),
     set_figure
       (Some (set_texts (pre0 ++ map (fun t => d !!! t) pre ++ k :: post) fig))
       w).
Proof.
  induction pre as [|t rest IH]; intros pre0 w fig Hf Hl Hall Hk.
  - cbn. rewrite Hk. unfold raise.
    rewrite set_texts_same, set_figure_same by assumption. reflexivity.
  - apply Forall_cons in Hall as [[s Hs] Hall].
    assert (E : <[length pre0 := s]> (pre0 ++ (t :: rest) ++ k :: post)%list
                = (pre0 ++ s :: rest ++ k :: post)%list).
    { rewrite insert_app_r_alt, Nat.sub_diag by lia. reflexivity. }
    destruct w as [o fs f]; cbn in Hf; subst f.
    cbn [relabel app]. rewrite Hs.
    unfold set_text, deref. run_M. rewrite Hl. cbn. cbn in E. rewrite E.
    specialize (IH (pre0 ++ [s])%list
                  {| stdout := o; files := fs;
                     figure := Some (set_texts (pre0 ++ s :: rest ++ k :: post)%list
                                       fig) |}
                  (set_texts (pre0 ++ s :: rest ++ k :: post)%list fig)).
    rewrite length_app, Nat.add_1_r in IH.
    rewrite IH; [|reflexivity|cbn; rewrite <- app_assoc; reflexivity
                 |assumption|assumption].
    rewrite <- app_assoc. cbn.
    rewrite (lookup_total_correct _ _ _ Hs). reflexivity.
Qed.

Variables (w : world) (fig : Figure).
Hypothesis Hfig : figure w = Some fig.

(** The loop of [export_legend] goes through the labels in legend order.
    It stops at the first label [k] without an entry and the [KeyError]
    names that label; the labels before it have already been replaced in
    the legend, [k] and those after it are as they were; the canvas has
    been drawn, nothing has been printed or written. *)
Theorem export_legend_first_missing filename d expand pre k post :
  legend_ (ax fig) = Some {| legend_texts := pre ++ k :: post |} ->
  Forall (fun t => is_Some (d !! t)) pre ->
  d !! k = None ->
  export_legend PyLegend filename (Some d) expand w =
    (Raise (KeyError k),
     set_figure
       (Some (set_texts (map (fun t => d !!! t) pre ++ k :: post) (draw fig)))
       w).
Proof.
  intros Hleg Hall Hk.
  destruct w as [o fs f]; cbn in Hfig; subst f.
  pose proof (relabel_stops d k post pre []
                {| stdout := o; files := fs; figure := Some (draw fig) |}
                (draw fig) eq_refl Hleg Hall Hk) as R.
  unfold export_legend, legend_figure, canvas_draw, get_texts, deref.
  run_M. rewrite Hleg. cbn. rewrite Hleg. cbn.
  cbn in R. rewrite R. reflexivity.
Qed.

Variable lg : Legend.
Hypothesis Hleg : legend_ (ax fig) = Some lg.

(** The saved legend image shows the relabelled legend: as many labels as
    before, in the same order, the [i]-th being the dict entry of the
    [i]-th category code. *)
Theorem legend_image_labels filename d expand :
  Forall (fun t => is_Some (d !! t)) (legend_texts lg) ->
  exists img ts',
    files (snd (export_legend PyLegend filename (Some d) expand w)) !! filename
      = Some img /\
    legend_ (ax (img_figure img)) = Some {| legend_texts := ts' |} /\
    length ts' = length (legend_texts lg) /\
    forall i t, legend_texts lg !! i = Some t ->
      exists s, d !! t = Some s /\ ts' !! i = Some s.
Proof.
  intros Hall.
  rewrite (export_legend_run w fig lg Hfig Hleg filename (Some d) expand Hall).
  cbn. rewrite lookup_insert_eq.
  eexists _, _. split; [reflexivity|]. cbn. split; [reflexivity|].
  split; [apply length_map|].
  intros i t Hi.
  destruct (proj1 (Forall_lookup _ _) Hall i t Hi) as [s Hs].
  exists s. split; [exact Hs|].
  rewrite list_lookup_fmap, Hi. cbn.
  rewrite (lookup_total_correct _ _ _ Hs). reflexivity.
Qed.

(** Called without a label dict (the default), [export_legend] does no
    lookup: it cannot fail on a label, leaves the legend as the plot made
    it, and saves it at 600 dpi. *)
Theorem export_legend_without_dict filename expand :
  fst (export_legend PyLegend filename None expand w) = Ok tt /\
  (exists fig',
     figure (snd (export_legend PyLegend filename None expand w)) = Some fig' /\
     legend_ (ax fig') = Some lg) /\
  exists img,
    files (snd (export_legend PyLegend filename None expand w)) !! filename
      = Some img /\
    legend_ (ax (img_figure img)) = Some lg /\
    img_dpi img = 600%float.
Proof.
  rewrite (export_legend_run w fig lg Hfig Hleg filename None expand I).
  cbn. rewrite lookup_insert_eq. destruct lg as [ts].
  split; [reflexivity|]. split; eexists; repeat split; reflexivity.
Qed.

End RelabelStops.

(** ** The whole notebook, continued *)

Section RunResult.
Context `{L : Library}.
Variables (cfg : Config) (gdf : GeoDataFrame) (a : Axes) (lg : Legend).
Hypothesis Hread : read_file (data_path cfg) = Ok gdf.
Hypothesis Hplot :
  gdf_plot gdf (column_to_plot cfg) notebook_plot_kwargs new_axes = Ok a.
Hypothesis Hleg : legend_ a = Some lg.
Hypothesis Hall :
  Forall (fun t => is_Some (legend_label_lookup cfg !! t)) (legend_texts lg).

(** Running the notebook again rewrites the same images: the files and
    the figure after a second run are those after the first; only the
    output grows. *)
Theorem rerun_is_idempotent w :
  files (snd (run cfg (snd (run cfg w)))) = files (snd (run cfg w)) /\
  figure (snd (run cfg (snd (run cfg w)))) = figure (snd (run cfg w)).
Proof.
  rewrite (run_result cfg gdf a lg Hplot Hleg Hall w Hread). cbn [snd].
  rewrite (run_result cfg gdf a lg Hplot Hleg Hall _ Hread). cbn.
  split; [|reflexivity].
  destruct (valid_dpi (dpi cfg));
    apply map_eq; intros p; rewrite !lookup_insert;
    repeat case_decide; reflexivity.
Qed.

(** In a run that gets past the legend export, the CRS warning is among
    the printed lines exactly when the CRS differs. *)
Theorem crs_warning_iff w :
  Msg crs_warning ∈ output_of (run cfg) w <-> crs_ne gdf expected_crs = true.
Proof.
  unfold output_of.
  rewrite (run_result cfg gdf a lg Hplot Hleg Hall w Hread).
  cbn [snd stdout]. rewrite drop_app_length.
  destruct (crs_ne gdf expected_crs); cbn.
  - split; [reflexivity|]. intros _. left.
  - split; [|discriminate]. intros H. exfalso.
    destruct (valid_dpi (dpi cfg)); [|inversion H].
    unfold report_lines in H.
    repeat (apply elem_of_cons in H as [H|H]; [discriminate H|]).
    inversion H.
Qed.

End RunResult.

Section RunOutcomes.
Context `{L : Library}.
Variable cfg : Config.

Lemma lookup_dec (d : gmap string string) (t : string) :
  {is_Some (d !! t)} + {d !! t = None}.
Proof. destruct (d !! t); [left; eauto|right; reflexivity]. Qed.

(** Every run either stops before the first [savefig], with the files as
    they were, or gets to a plot with a fully labelled legend. *)
Lemma run_cases w :
  (exists e w', run cfg w = (Raise e, w') /\ files w' = files w) \/
  (exists gdf a lg,
     read_file (data_path cfg) = Ok gdf /\
     gdf_plot gdf (column_to_plot cfg) notebook_plot_kwargs new_axes = Ok a /\
     legend_ a = Some lg /\
     Forall (fun t => is_Some (legend_label_lookup cfg !! t)) (legend_texts lg)).
Proof.
  destruct (read_file (data_path cfg)) as [gdf|e] eqn:Hread.
  2:{ left. exists e, w. split; [|reflexivity].
      rewrite run_unfold, (cell2_read_error cfg w e Hread). reflexivity. }
  set (w1 := if crs_ne gdf expected_crs
             then set_stdout (stdout w ++ [Msg crs_warning]) w else w).
  assert (Hw1 : files w1 = files w) by apply files_after_cell2.
  destruct (gdf_plot gdf (column_to_plot cfg) notebook_plot_kwargs new_axes)
    as [a|e] eqn:Hplot.
  2:{ left. destruct (cell4_plot_error cfg gdf w1 e Hplot) as (w' & H4 & Hfs).
      exists e, w'. split; [|congruence].
      apply (run_cell4_error cfg gdf w Hread e w' H4). }
  destruct (legend_ a) as [lg|] eqn:Hleg.
  2:{ left. destruct (cell4_no_legend cfg gdf w1 a Hplot Hleg) as (w' & H4 & Hfs).
      eexists _, w'. split; [|congruence].
      apply (run_cell4_error cfg gdf w Hread _ w' H4). }
  destruct (Forall_Exists_dec _ _ (lookup_dec (legend_label_lookup cfg))
              (legend_texts lg)) as [Hall|Hex].
  - right. exists gdf, a, lg. auto.
  - left.
    destruct (cell4_label_missing cfg gdf w1 a lg Hplot Hleg Hex)
      as (k & w' & _ & _ & H4 & Hfs).
    eexists _, w'. split; [|congruence].
    apply (run_cell4_error cfg gdf w Hread _ w' H4).
Qed.

(** A run that returns normally went through both saves. *)
Lemma run_ok_inv w :
  fst (run cfg w) = Ok tt ->
  exists gdf a lg,
    files (snd (run cfg w)) =
      <[texture_filename cfg := texture_image_of cfg a lg]>
        (<[legend_filename cfg := legend_image_of cfg a lg]> (files w)) /\
    figure (snd (run cfg w)) = Some (strip (legend_figure_of cfg a lg)) /\
    gdf_plot gdf (column_to_plot cfg) notebook_plot_kwargs new_axes = Ok a /\
    legend_ a = Some lg.
Proof.
  intros Hok.
  destruct (run_cases w)
    as [(e & w' & Hr & _)|(gdf & a & lg & Hread & Hplot & Hleg & Hall)].
  - rewrite Hr in Hok. discriminate Hok.
  - exists gdf, a, lg.
    rewrite (run_result cfg gdf a lg Hplot Hleg Hall w Hread) in Hok |- *.
    destruct (valid_dpi (dpi cfg)); [|discriminate Hok]. cbn. auto.
Qed.

(** The three ways a run can end.  It returns normally after both saves,
    the legend image written first and the texture image second; or it
    raises before the first [savefig] (a failed read, a failed plot, no
    legend, a label without entry) with the files exactly as they were; or
    it raises in the texture save, with the legend image, at 600 dpi,
    already written and nothing else changed. *)
Theorem run_outcomes w :
  (fst (run cfg w) = Ok tt /\
   exists legend_img texture_img,
     files (snd (run cfg w)) =
       <[texture_filename cfg := texture_img]>
         (<[legend_filename cfg := legend_img]> (files w))) \/
  (exists e, fst (run cfg w) = Raise e /\ files (snd (run cfg w)) = files w) \/
  (exists e legend_img,
     fst (run cfg w) = Raise e /\
     files (snd (run cfg w)) = <[legend_filename cfg := legend_img]> (files w) /\
     img_dpi legend_img = 600%float).
Proof.
  destruct (run_cases w)
    as [(e & w' & Hr & Hfs)|(gdf & a & lg & Hread & Hplot & Hleg & Hall)].
  - right. left. exists e. rewrite Hr. auto.
  - rewrite (run_result cfg gdf a lg Hplot Hleg Hall w Hread).
    destruct (valid_dpi (dpi cfg)); cbn.
    + left. split; [reflexivity|]. eexists _, _. reflexivity.
    + right. right. eexists _, _. repeat split; reflexivity.
Qed.

(** Whatever happens, a run touches no file other than the two configured
    paths. *)
Theorem run_touches_two_paths w p :
  p <> legend_filename cfg -> p <> texture_filename cfg ->
  files (snd (run cfg w)) !! p = files w !! p.
Proof.
  intros Hl Ht.
  destruct (run_cases w)
    as [(e & w' & Hr & Hfs)|(gdf & a & lg & Hread & Hplot & Hleg & Hall)].
  - rewrite Hr. cbn. rewrite Hfs. reflexivity.
  - rewrite (run_result cfg gdf a lg Hplot Hleg Hall w Hread). cbn.
    destruct (valid_dpi (dpi cfg));
      rewrite !lookup_insert_ne by congruence; reflexivity.
Qed.

(** In a run that returns normally, the texture was saved last, from the
    stripped figure: the legend has been removed, the axes are off with
    empty tick lists, the subplot padding is zero and the aspect is equal;
    it was saved tight, without padding, at the configured resolution. *)
Theorem texture_image_is_stripped w :
  fst (run cfg w) = Ok tt ->
  exists img,
    files (snd (run cfg w)) !! texture_filename cfg = Some img /\
    img_dpi img = dpi cfg /\
    img_bbox img = BboxTight 0 /\
    legend_ (ax (img_figure img)) = None /\
    axison (ax (img_figure img)) = false /\
    xticks (ax (img_figure img)) = Some [] /\
    yticks (ax (img_figure img)) = Some [] /\
    ax_aspect (ax (img_figure img)) = AspectEqual /\
    subplotpars (img_figure img) = Some no_padding.
Proof.
  intros Hok. destruct (run_ok_inv w Hok) as (gdf & a & lg & Hfs & _).
  rewrite Hfs, lookup_insert_eq.
  eexists. repeat split; reflexivity.
Qed.

(** With the same name configured for both images, a run that returns
    normally leaves the texture, written second, in the file. *)
Theorem same_filename_keeps_texture w :
  legend_filename cfg = texture_filename cfg ->
  fst (run cfg w) = Ok tt ->
  exists img,
    files (snd (run cfg w)) !! legend_filename cfg = Some img /\
    img_bbox img = BboxTight 0 /\ img_dpi img = dpi cfg.
Proof.
  intros Heq Hok. destruct (run_ok_inv w Hok) as (gdf & a & lg & Hfs & _).
  rewrite Hfs, Heq, lookup_insert_eq.
  eexists. repeat split; reflexivity.
Qed.

End RunOutcomes.

(** ** The further properties at concrete inputs *)

Lemma labels_abc_known :
  Forall (fun t => is_Some (notebook_label_lookup !! t)) ["A"; "B"; "C"].
Proof.
  repeat (apply Forall_cons_2; [eexists; reflexivity|]). apply Forall_nil_2.
Defined.

Lemma offsets_signs_example :
  exists e n,
    reported lbl_eastings (output_of (cell5 notebook_config) example_world)
      = Some e /\
    reported lbl_northings (output_of (cell5 notebook_config) example_world)
      = Some n /\
    (e <=? 0)%float = true /\ (0 <=? n)%float = true.
Proof.
  apply (offsets_signs notebook_config example_world example_figure
           eq_refl eq_refl eq_refl eq_refl eq_refl eq_refl eq_refl).
Defined.

Lemma offsets_at_corner_example :
  let cfg := with_origin 500000 160000 notebook_config in
  reported lbl_eastings (output_of (cell5 cfg) example_world) = Some neg_zero /\
  reported lbl_northings (output_of (cell5 cfg) example_world) = Some zero.
Proof.
  intros cfg.
  apply (offsets_at_corner cfg example_world example_figure
           eq_refl eq_refl eq_refl eq_refl eq_refl).
Defined.

Lemma report_only_prints_example :
  fst (cell5 notebook_config example_world) = Ok tt /\
  files (snd (cell5 notebook_config example_world)) = ∅ /\
  length (output_of (cell5 notebook_config) example_world) = 7.
Proof.
  destruct (report_only_prints notebook_config example_world example_figure
              eq_refl) as (H1 & H2 & _ & H4 & _).
  split; [exact H1|]. split; [exact H2|exact H4].
Defined.

Lemma report_before_plot_example :
  fst (cell5 notebook_config empty_world) = Raise (NameError "ax") /\
  output_of (cell5 notebook_config) empty_world =
    [Msg "The following information is needed to build the overlay texture in unreal:"] /\
  files (snd (cell5 notebook_config empty_world)) = ∅.
Proof. apply (report_before_plot notebook_config empty_world eq_refl). Defined.

Lemma export_legend_first_missing_example :
  @export_legend sample_library PyLegend "legend.png"
    (Some notebook_label_lookup) default_expand (sample_plotted ["A"; "Z"; "B"])
  = (Raise (KeyError "Z"),
     set_figure
       (Some (set_texts ["Intermediate Lifestyles"; "Z"; "B"]
                (draw (@plotted_figure sample_library notebook_config
                         (sample_axes ["A"; "Z"; "B"])))))
       (sample_plotted ["A"; "Z"; "B"])).
Proof.
  apply (@export_legend_first_missing sample_library
           (sample_plotted ["A"; "Z"; "B"]) _ eq_refl "legend.png"
           notebook_label_lookup default_expand ["A"] "Z" ["B"] eq_refl).
  - apply Forall_cons_2; [eexists; reflexivity|apply Forall_nil_2].
  - reflexivity.
Defined.

Lemma legend_image_labels_example :
  exists img,
    files (snd (@export_legend sample_library PyLegend "legend.png"
                  (Some notebook_label_lookup) default_expand
                  (sample_plotted ["A"; "B"; "C"]))) !! "legend.png"
      = Some img /\
    exists ts', legend_ (ax (img_figure img)) = Some {| legend_texts := ts' |} /\
                length ts' = 3.
Proof.
  destruct (@legend_image_labels sample_library
              (sample_plotted ["A"; "B"; "C"]) _ eq_refl legend_abc eq_refl
              "legend.png" notebook_label_lookup default_expand labels_abc_known)
    as (img & ts' & Hf & Hl & Hn & _).
  exists img. split; [exact Hf|]. exists ts'. split; [exact Hl|exact Hn].
Defined.

Lemma export_legend_without_dict_example :
  fst (@export_legend sample_library PyLegend "legend.png" None default_expand
         (sample_plotted ["A"; "Z"; "B"])) = Ok tt.
Proof.
  apply (@export_legend_without_dict sample_library
           (sample_plotted ["A"; "Z"; "B"]) _ eq_refl
           {| legend_texts := ["A"; "Z"; "B"] |} eq_refl
           "legend.png" default_expand).
Defined.

Lemma export_legend_order_example :
  exists img,
    files (snd (@export_legend sample_library PyLegend "legend.png"
                  (Some notebook_label_lookup) default_expand
                  (sample_plotted ["A"; "B"; "C"]))) !! "legend.png"
      = Some img /\
    canvas_draws (img_figure img) = 1 /\
    drawn_labels (img_figure img) = Some ["A"; "B"; "C"].
Proof.
  destruct (@export_legend_order sample_library
              (sample_plotted ["A"; "B"; "C"]) _ legend_abc eq_refl eq_refl
              "legend.png" (Some notebook_label_lookup) default_expand
              labels_abc_known)
    as (img & Hf & Hd & Hl & _).
  exists img. split; [exact Hf|]. split; [exact Hd|exact Hl].
Defined.

Lemma texture_image_is_stripped_example :
  exists img,
    files (snd (@run sample_library notebook_config empty_world))
      !! "images/FourLADs_LOAC_texture.png" = Some img /\
    legend_ (ax (img_figure img)) = None /\
    axison (ax (img_figure img)) = false.
Proof.
  destruct (@texture_image_is_stripped sample_library notebook_config
              empty_world eq_refl)
    as (img & Hf & _ & _ & Hl & Ha & _).
  exists img. split; [exact Hf|]. split; [exact Hl|exact Ha].
Defined.

Lemma same_filename_keeps_texture_example :
  let cfg := with_texture_filename "images/FourLADs_LOAC_legend.png"
               notebook_config in
  exists img,
    files (snd (@run sample_library cfg empty_world))
      !! "images/FourLADs_LOAC_legend.png" = Some img /\
    img_bbox img = BboxTight 0 /\ img_dpi img = 600%float.
Proof.
  intros cfg.
  apply (@same_filename_keeps_texture sample_library cfg empty_world
           eq_refl eq_refl).
Defined.

Lemma rerun_is_idempotent_example :
  files (snd (@run sample_library notebook_config
                (snd (@run sample_library notebook_config empty_world))))
    = files (snd (@run sample_library notebook_config empty_world)) /\
  figure (snd (@run sample_library notebook_config
                 (snd (@run sample_library notebook_config empty_world))))
    = figure (snd (@run sample_library notebook_config empty_world)).
Proof.
  apply (@rerun_is_idempotent sample_library notebook_config
           sample_abc (sample_axes ["A"; "B"; "C"]) legend_abc
           eq_refl eq_refl eq_refl labels_abc_known empty_world).
Defined.

Lemma crs_warning_iff_example :
  Msg crs_warning ∈ output_of (@run sample_library notebook_config) empty_world
  <-> false = true.
Proof.
  apply (@crs_warning_iff sample_library notebook_config
           sample_abc (sample_axes ["A"; "B"; "C"]) legend_abc
           eq_refl eq_refl eq_refl labels_abc_known empty_world).
Defined.

Lemma run_touches_two_paths_example :
  files (snd (@run sample_library notebook_config empty_world)) !! "notes.txt"
    = None.
Proof.
  apply (@run_touches_two_paths sample_library notebook_config empty_world
           "notes.txt"); discriminate.
Defined.

(** A column the table does not have: the stand-in plot raises. *)
Lemma run_plot_error_example :
  let cfg := with_column "Group" notebook_config in
  fst (@run sample_library cfg empty_world) = Raise (KeyError "Group") /\
  files (snd (@run sample_library cfg empty_world)) = ∅.
Proof.
  intros cfg.
  apply (@run_plot_error sample_library cfg sample_abc empty_world eq_refl
           (KeyError "Group") eq_refl).
Defined.

Lemma run_no_legend_example :
  fst (@run sample_library_no_legend notebook_config empty_world)
    = Raise (AttributeError "'NoneType' object has no attribute 'figure'") /\
  files (snd (@run sample_library_no_legend notebook_config empty_world)) = ∅.
Proof.
  apply (@run_no_legend sample_library_no_legend notebook_config sample_abc
           empty_world eq_refl _ eq_refl eq_refl).
Defined.
